(** * The customer-service tool bridge: record store, operation registry
      and tool client

    A shallow embedding of [mcp_server_standalone.py] (the SQLite-backed
    record store and the [MCPServer] operation registry) and of
    [mcp_tools.py] (the tool client), followed by the properties of the
    specification that concern them.

    Conventions of the embedding.
    - The database file is the state: a [store] holds the two tables, each
      as the list of its rows in rowid order.  Every tool opens its own
      connection, so a tool is a function from the store to its result and
      the store it leaves behind.
    - [datetime.datetime.now(datetime.UTC).isoformat()] is an input: the
      text [now] read from the clock by the one call that needs it.
    - Python raises; the embedding returns an [outcome], either [Ret] or
      [Raise] with the exception.
    - Parameters with a type annotation ([customer_id: int], [issue: str],
      ...) are taken at that type: an [int] is any [Z], and a tool raises
      [OverflowError] where it binds one that SQLite's INTEGER, signed 64
      bits, cannot hold.  The dispatch of [call_tool] hands an argument of
      another type than annotated to a tool behaviour left open.  The values
      of the update payload ([data: dict]) carry no annotation and are
      arbitrary JSON values ([pyvalue]); numbers with a fraction are left
      out.
    - A string is a sequence of bytes, the UTF-8 encoding of a Python
      [str].  A [str] with a lone surrogate has no such encoding (SQLite
      refuses to bind it and [JSONResponse] to render it) and is no value
      of the embedding.
    - A [store] stands for a database file of SQLite: its ids are within
      signed 64 bits and the table of tickets is not full (its largest
      rowid is below 2^63 - 1), so that an INSERT gets the next rowid.
    - What the libraries do is stated where the code calls them: SQLite's
      binding of parameters, column affinity and LIMIT in [Store]; the
      network, [json.dumps] and [json.loads] as parameters of the client. *)

From Stdlib Require Import ZArith String Ascii List Bool Lia.
From Stdlib Require Import DecimalString Sorted Permutation OrdersEx.
From Stdlib Require Import RelationClasses.
Import ListNotations.

Open Scope string_scope.
Open Scope Z_scope.
Open Scope list_scope.

Set Warnings "-register-all".

(** ** Python values *)

(** What [json.loads] / [request.json()] produce, and what the tools pass
    around: [None], [bool], [int], [str], [list], [dict].  A [dict] keeps
    its items in insertion order. *)
Inductive pyvalue : Type :=
| VNone
| VBool (b : bool)
| VInt (z : Z)
| VStr (s : string)
| VList (items : list pyvalue)
| VDict (items : list (string * pyvalue)).

(** A Python [dict] with [str] keys, as the list of its items. *)
Definition pydict : Type := list (string * pyvalue).

(** A list of items is a dict when no key occurs twice. *)
Definition is_dict (d : pydict) : Prop := NoDup (map fst d).

(** [d.get(k)] as an option, [None] when the key is absent. *)
Fixpoint dict_get (k : string) (d : pydict) : option pyvalue :=
  match d with
  | [] => None
  | (k', v) :: rest => if String.eqb k k' then Some v else dict_get k rest
  end.

(** [d.get(k, default)]. *)
Definition dict_get_default (k : string) (d : pydict) (default : pyvalue)
  : pyvalue :=
  match dict_get k d with
  | Some v => v
  | None => default
  end.

(** Truth value of an object, as [if x:] tests it. *)
Definition truthy (v : pyvalue) : bool :=
  match v with
  | VNone => false
  | VBool b => b
  | VInt z => negb (z =? 0)
  | VStr s => negb (String.eqb s "")
  | VList l => match l with [] => false | _ => true end
  | VDict d => match d with [] => false | _ => true end
  end.

(** [str(n)] of an [int], also what an f-string writes for it. *)
Definition str_int (z : Z) : string := NilZero.string_of_int (Z.to_int z).

(** [c.lower()] on one character of the ASCII range. *)
Definition lower_ascii (c : ascii) : ascii :=
  let n := nat_of_ascii c in
  if (andb (Nat.leb 65 n) (Nat.leb n 90)) then ascii_of_nat (n + 32) else c.

(** [s.lower()].  Strings are byte sequences here; bytes outside the ASCII
    range are kept, and no character outside that range lower-cases to one
    of the letters of [low], [medium] or [high]. *)
Fixpoint lower (s : string) : string :=
  match s with
  | EmptyString => EmptyString
  | String c rest => String (lower_ascii c) (lower rest)
  end.

(** [x in xs] for strings. *)
Definition str_in (x : string) (xs : list string) : bool :=
  existsb (String.eqb x) xs.

(** ** Exceptions *)

(** The exceptions the modelled code can meet, by what raises them. *)
Inductive exn : Type :=
| TypeError_unexpected_keyword (callee keyword : string)
| TypeError_missing_arguments (callee : string) (missing : list string)
| AttributeError (obj : pyvalue) (attribute : string)
| OverflowError (z : Z)
| ValueError_int_max_str_digits (digits : nat)
| RecursionError
| Sqlite_unsupported_type (position : nat) (v : pyvalue)
| RequestException (reason : string)
| HTTPError (status_code : Z)
| ResponseJSONDecodeError
| OtherException (message : string).

Inductive outcome (A : Type) : Type :=
| Ret (a : A)
| Raise (e : exn).

Arguments Ret {A} a.
Arguments Raise {A} e.

Definition bind {A B : Type} (m : outcome A) (k : A -> outcome B)
  : outcome B :=
  match m with
  | Ret a => k a
  | Raise e => Raise e
  end.

(** [try: m  except Exception as e: handler e]. *)
Definition try_except {A : Type} (m : outcome A) (handler : exn -> outcome A)
  : outcome A :=
  match m with
  | Ret a => Ret a
  | Raise e => handler e
  end.

Declare Scope outcome_scope.
Delimit Scope outcome_scope with outcome.
Notation "x <- m ;; k" := (bind m (fun x => k))
  (at level 61, m at next level, right associativity) : outcome_scope.
Open Scope outcome_scope.

(** ** Record store *)

Module Store.

(** A row of [customers].  The four text columns are nullable and are
    written by [update_customer]; the two timestamps are always written as
    text. *)
Record customer : Type := mkCustomer {
  c_id : Z;
  c_name : option string;
  c_email : option string;
  c_phone : option string;
  c_status : option string;
  c_created_at : string;
  c_updated_at : string
}.

(** A row of [tickets]. *)
Record ticket : Type := mkTicket {
  t_id : Z;
  t_customer_id : Z;
  t_issue : string;
  t_status : string;
  t_priority : string;
  t_created_at : string
}.

(** The database: both tables, rows in rowid order. *)
Record store : Type := mkStore {
  customers : list customer;
  tickets : list ticket
}.

(** A value bound to a [?] of a statement. *)
Inductive sqlvalue : Type :=
| SqlNull
| SqlInteger (z : Z)
| SqlText (s : string).

(** SQLite's INTEGER is a signed 64-bit integer. *)
Definition fits_int64 (z : Z) : bool :=
  andb (- 2 ^ 63 <=? z) (z <? 2 ^ 63).

(** Binding one Python value to the parameter at [position]: [None], [int]
    ([bool] included) and [str] are supported, an [int] that does not fit
    raises [OverflowError], any other type is refused. *)
Definition bind_parameter (position : nat) (v : pyvalue) : outcome sqlvalue :=
  match v with
  | VNone => Ret SqlNull
  | VBool b => Ret (SqlInteger (if b then 1 else 0))
  | VInt z => if fits_int64 z then Ret (SqlInteger z) else Raise (OverflowError z)
  | VStr s => Ret (SqlText s)
  | VList _ | VDict _ => Raise (Sqlite_unsupported_type position v)
  end.

(** Binding the parameters of a statement from left to right. *)
Fixpoint bind_parameters (position : nat) (vs : list pyvalue)
  : outcome (list sqlvalue) :=
  match vs with
  | [] => Ret []
  | v :: rest =>
      sv <- bind_parameter position v ;;
      svs <- bind_parameters (S position) rest ;;
      Ret (sv :: svs)
  end.

(** What a column declared [TEXT] stores: an integer is converted to its
    text form, text and NULL are kept. *)
Definition text_affinity (sv : sqlvalue) : option string :=
  match sv with
  | SqlNull => None
  | SqlInteger z => Some (str_int z)
  | SqlText s => Some s
  end.

(** [SET k = v] on one row, for the columns of the update path. *)
Definition set_column (k : string) (v : option string) (c : customer)
  : customer :=
  if String.eqb k "name" then
    mkCustomer (c_id c) v (c_email c) (c_phone c) (c_status c)
               (c_created_at c) (c_updated_at c)
  else if String.eqb k "email" then
    mkCustomer (c_id c) (c_name c) v (c_phone c) (c_status c)
               (c_created_at c) (c_updated_at c)
  else if String.eqb k "phone" then
    mkCustomer (c_id c) (c_name c) (c_email c) v (c_status c)
               (c_created_at c) (c_updated_at c)
  else if String.eqb k "status" then
    mkCustomer (c_id c) (c_name c) (c_email c) (c_phone c) v
               (c_created_at c) (c_updated_at c)
  else c.

(** The value of one of those columns in a row, as a SELECT reads it. *)
Definition get_column (k : string) (c : customer) : option string :=
  if String.eqb k "name" then c_name c
  else if String.eqb k "email" then c_email c
  else if String.eqb k "phone" then c_phone c
  else if String.eqb k "status" then c_status c
  else None.

Definition set_updated_at (now : string) (c : customer) : customer :=
  mkCustomer (c_id c) (c_name c) (c_email c) (c_phone c) (c_status c)
             (c_created_at c) now.

(** The assignments of a [SET] clause, left to right. *)
Definition apply_assignments (assignments : list (string * sqlvalue))
  (c : customer) : customer :=
  fold_left (fun row kv => set_column (fst kv) (text_affinity (snd kv)) row)
            assignments c.

(** [SELECT * FROM customers WHERE id=?] *)
Definition select_customers_by_id (customer_id : Z) (db : store)
  : list customer :=
  filter (fun c => c_id c =? customer_id) (customers db).

(** [WHERE status=?]: NULL is equal to nothing. *)
Definition status_is (status : string) (c : customer) : bool :=
  match c_status c with
  | Some s => String.eqb s status
  | None => false
  end.

(** [LIMIT ?]: a negative limit is no limit. *)
Definition sql_limit {A : Type} (limit : Z) (rows : list A) : list A :=
  if limit <? 0 then rows else firstn (Z.to_nat limit) rows.

(** [SELECT * FROM customers WHERE status=? LIMIT ?] *)
Definition select_customers_by_status (status : string) (limit : Z)
  (db : store) : list customer :=
  sql_limit limit (filter (status_is status) (customers db)).

(** [SELECT * FROM customers LIMIT ?] *)
Definition select_customers (limit : Z) (db : store) : list customer :=
  sql_limit limit (customers db).

(** [UPDATE customers SET <assignments>, updated_at=? WHERE id=?] *)
Definition update_customers (assignments : list (string * sqlvalue))
  (now : string) (customer_id : Z) (db : store) : store :=
  mkStore
    (map (fun c =>
            if c_id c =? customer_id
            then set_updated_at now (apply_assignments assignments c)
            else c)
         (customers db))
    (tickets db).

(** The rowid an [INSERT] into [tickets] gets: one more than the largest
    in use (no row is ever deleted), 1 in an empty table. *)
Definition next_ticket_id (db : store) : Z :=
  fold_right Z.max 0 (map t_id (tickets db)) + 1.

(** [INSERT INTO tickets (customer_id, issue, status, priority, created_at)
    VALUES (?, ?, ?, ?, ?)]; returns [cur.lastrowid] with the store. *)
Definition insert_ticket (customer_id : Z) (issue status priority
  created_at : string) (db : store) : Z * store :=
  let ticket_id := next_ticket_id db in
  (ticket_id,
   mkStore (customers db)
           (tickets db ++
            [mkTicket ticket_id customer_id issue status priority created_at])).

(** [SELECT * FROM tickets WHERE id=?] *)
Definition select_tickets_by_id (ticket_id : Z) (db : store) : list ticket :=
  filter (fun t => t_id t =? ticket_id) (tickets db).

(** [ORDER BY created_at DESC]: text compared byte by byte, larger first;
    rows with equal keys keep their rowid order. *)
Fixpoint insert_desc (t : ticket) (sorted : list ticket) : list ticket :=
  match sorted with
  | [] => [t]
  | u :: rest =>
      if String.leb (t_created_at u) (t_created_at t)
      then t :: u :: rest
      else u :: insert_desc t rest
  end.

Definition order_by_created_at_desc (rows : list ticket) : list ticket :=
  fold_right insert_desc [] rows.

(** [SELECT * FROM tickets WHERE customer_id=? ORDER BY created_at DESC] *)
Definition select_tickets_by_customer (customer_id : Z) (db : store)
  : list ticket :=
  order_by_created_at_desc
    (filter (fun t => t_customer_id t =? customer_id) (tickets db)).

(** [cur.fetchone()] *)
Definition fetchone {A : Type} (rows : list A) : option A := hd_error rows.

(** [init_db]: both tables dropped, recreated and seeded; [now] is the
    clock reading shared by all seeded rows. *)
Definition init_db (now : string) : store :=
  let customer (id : Z) (name email phone status : string) :=
    mkCustomer id (Some name) (Some email) (Some phone) (Some status) now now in
  let seeded :=
    mkStore
      [ customer 1 "Alice Premium" "alice@example.com" "111-111-1111" "active";
        customer 2 "Bob Standard" "bob@example.com" "222-222-2222" "active";
        customer 3 "Charlie Disabled" "charlie@example.com" "333-333-3333"
                 "disabled";
        customer 4 "Diana Premium" "diana@example.com" "444-444-4444" "active";
        customer 5 "Eve Standard" "eve@example.com" "555-555-5555" "active";
        customer 12345 "Priya Patel (Premium)" "priya@example.com" "555-0999"
                 "active" ]
      [] in
  fold_left
    (fun db row =>
       match row with
       | (customer_id, issue, status, priority) =>
           snd (insert_ticket customer_id issue status priority now db)
       end)
    [ (1, "Billing duplicate charge", "open", "high");
      (1, "Unable to login", "in_progress", "medium");
      (2, "Request upgrade", "open", "low");
      (4, "Critical outage", "open", "high");
      (5, "Password reset", "open", "low");
      (12345, "Account upgrade assistance", "open", "medium");
      (12345, "High priority refund review", "open", "high") ]
    seeded.

(** Primary keys: ids strictly increase along each table, the rowids of
    tickets start at 1, and the ids of customers, by which the tools look
    rows up, are INTEGERs of SQLite. *)
Definition well_formed (db : store) : Prop :=
  StronglySorted Z.lt (map c_id (customers db)) /\
  StronglySorted Z.lt (map t_id (tickets db)) /\
  Forall (fun t => 0 < t_id t) (tickets db) /\
  Forall (fun c => fits_int64 (c_id c) = true) (customers db).

End Store.

Import Store.

(** ** Operation registry: the tools of [MCPServer] *)

Module MCPServer.

(** [data] of a success envelope: [dict(row)] or the list of them. *)
Inductive payload : Type :=
| Customer_row (row : customer)
| Customer_rows (rows : list customer)
| Ticket_row (row : ticket)
| Ticket_rows (rows : list ticket).

(** The result envelope: [{"success": True, "data": ..., "count": ...}]
    ([count] only on the list operations) or
    [{"success": False, "error": ...}]. *)
Inductive envelope : Type :=
| Success (data : payload) (count : option nat)
| Failure (error : string).

Definition allowed_fields : list string := ["name"; "email"; "phone"; "status"].

Definition priorities : list string := ["low"; "medium"; "high"].

(** [_get_customer_tool]: [cur.execute] binds [(customer_id,)], which
    raises for an [int] outside signed 64 bits. *)
Definition _get_customer_tool (customer_id : Z) (db : store)
  : outcome envelope :=
  _ <- bind_parameters 0 [VInt customer_id] ;;
  match fetchone (select_customers_by_id customer_id db) with
  | Some row => Ret (Success (Customer_row row) None)
  | None => Ret (Failure ("Customer " ++ str_int customer_id ++ " not found"))
  end.

(** [_list_customers_tool]; [if status:] is false for [None] and for the
    empty string.  The parameters are [(status, limit)] with a filter and
    [(limit,)] without. *)
Definition _list_customers_tool (status : option string) (limit : Z)
  (db : store) : outcome envelope :=
  rows <-
    match status with
    | Some s =>
        if truthy (VStr s)
        then _ <- bind_parameters 0 [VStr s; VInt limit] ;;
             Ret (select_customers_by_status s limit db)
        else _ <- bind_parameters 0 [VInt limit] ;;
             Ret (select_customers limit db)
    | None =>
        _ <- bind_parameters 0 [VInt limit] ;;
        Ret (select_customers limit db)
    end ;;
  Ret (Success (Customer_rows rows) (Some (length rows))).

(** [{k: v for k, v in data.items() if k in allowed_fields}] *)
Definition allowed_updates (data : pydict) : pydict :=
  filter (fun kv => str_in (fst kv) allowed_fields) data.

(** [list(updates.values()) + [now, customer_id]] *)
Definition update_parameters (updates : pydict) (now : string)
  (customer_id : Z) : list pyvalue :=
  map snd updates ++ [VStr now; VInt customer_id].

(** [_update_customer_tool].  The parameters of the UPDATE are the update
    values in order, then the clock reading and the id; binding them is
    what can raise, before anything is written.  The first of the bound
    values, one for each key, are the assignments of the SET clause.  The
    SELECT that follows binds [customer_id] once more, which has just been
    bound. *)
Definition _update_customer_tool (customer_id : Z) (data : pydict)
  (now : string) (db : store) : outcome (envelope * store) :=
  let updates := allowed_updates data in
  match updates with
  | [] => Ret (Failure "No valid fields to update", db)
  | _ :: _ =>
      params <- bind_parameters 0 (update_parameters updates now customer_id) ;;
      let db' :=
        update_customers (combine (map fst updates) params) now customer_id db in
      match fetchone (select_customers_by_id customer_id db') with
      | Some row => Ret (Success (Customer_row row) None, db')
      | None =>
          Ret (Failure ("Customer " ++ str_int customer_id ++ " not found"), db')
      end
  end.

(** [_create_ticket_tool].  The priority is checked first; the INSERT then
    binds [(customer_id, issue, "open", priority.lower(), now)], which
    raises, before any row is written, for an [int] outside signed 64
    bits.  [cur.lastrowid] is a rowid of SQLite's and binds. *)
Definition _create_ticket_tool (customer_id : Z) (issue priority : string)
  (now : string) (db : store) : outcome (envelope * store) :=
  if negb (str_in (lower priority) priorities) then
    Ret (Failure "Priority must be 'low', 'medium', or 'high'", db)
  else
    _ <- bind_parameters 0 [VInt customer_id; VStr issue; VStr "open";
                            VStr (lower priority); VStr now] ;;
    let (ticket_id, db') :=
      insert_ticket customer_id issue "open" (lower priority) now db in
    match fetchone (select_tickets_by_id ticket_id db') with
    | Some row => Ret (Success (Ticket_row row) None, db')
    | None => Ret (Failure "Failed to create ticket", db')
    end.

(** [_get_customer_history_tool]: [cur.execute] binds [(customer_id,)]. *)
Definition _get_customer_history_tool (customer_id : Z) (db : store)
  : outcome envelope :=
  _ <- bind_parameters 0 [VInt customer_id] ;;
  let rows := select_tickets_by_customer customer_id db in
  Ret (Success (Ticket_rows rows) (Some (length rows))).

(** *** Dispatch *)

Section Registry.

(** [str(e)], the message of an exception: the text is the interpreter's
    and the libraries'. *)
Variable str_exn : exn -> string.

(** What a tool does when an argument is not of the annotated type: left
    open, it may return or raise. *)
Variable untyped :
  string -> pydict -> string -> store -> outcome (envelope * store).

(** A registered tool, called as [self.tools[tool_name]( **kwargs)]. *)
Definition tool : Type :=
  pydict -> string -> store -> outcome (envelope * store).

(** Binding keyword arguments to the parameters of [callee]: a keyword
    that names no parameter is a [TypeError], and so is a parameter without
    default that no keyword provides. *)
Definition bind_keywords (callee : string) (required optional : list string)
  (kwargs : pydict) : outcome unit :=
  match find (fun kv => negb (str_in (fst kv) (required ++ optional))) kwargs with
  | Some (k, _) => Raise (TypeError_unexpected_keyword callee k)
  | None =>
      match filter (fun p => negb (str_in p (map fst kwargs))) required with
      | [] => Ret tt
      | missing => Raise (TypeError_missing_arguments callee missing)
      end
  end.

Definition as_int (v : pyvalue) : option Z :=
  match v with
  | VInt z => Some z
  | _ => None
  end.

Definition as_str (v : pyvalue) : option string :=
  match v with
  | VStr s => Some s
  | _ => None
  end.

Definition as_optional_str (v : pyvalue) : option (option string) :=
  match v with
  | VNone => Some None
  | VStr s => Some (Some s)
  | _ => None
  end.

Definition as_dict (v : pyvalue) : option pydict :=
  match v with
  | VDict d => Some d
  | _ => None
  end.

(** [self._get_customer_tool( **kwargs)] *)
Definition call_get_customer : tool := fun kwargs now db =>
  _ <- bind_keywords "_get_customer_tool" ["customer_id"] [] kwargs ;;
  match as_int (dict_get_default "customer_id" kwargs VNone) with
  | Some customer_id =>
      result <- _get_customer_tool customer_id db ;;
      Ret (result, db)
  | None => untyped "get_customer" kwargs now db
  end.

(** [self._list_customers_tool( **kwargs)], [status=None], [limit=100]. *)
Definition call_list_customers : tool := fun kwargs now db =>
  _ <- bind_keywords "_list_customers_tool" [] ["status"; "limit"] kwargs ;;
  match as_optional_str (dict_get_default "status" kwargs VNone),
        as_int (dict_get_default "limit" kwargs (VInt 100)) with
  | Some status, Some limit =>
      result <- _list_customers_tool status limit db ;;
      Ret (result, db)
  | _, _ => untyped "list_customers" kwargs now db
  end.

(** [self._update_customer_tool( **kwargs)] *)
Definition call_update_customer : tool := fun kwargs now db =>
  _ <- bind_keywords "_update_customer_tool" ["customer_id"; "data"] [] kwargs ;;
  match as_int (dict_get_default "customer_id" kwargs VNone),
        as_dict (dict_get_default "data" kwargs VNone) with
  | Some customer_id, Some data => _update_customer_tool customer_id data now db
  | _, _ => untyped "update_customer" kwargs now db
  end.

(** [self._create_ticket_tool( **kwargs)], [priority="medium"]. *)
Definition call_create_ticket : tool := fun kwargs now db =>
  _ <- bind_keywords "_create_ticket_tool" ["customer_id"; "issue"]
                     ["priority"] kwargs ;;
  match as_int (dict_get_default "customer_id" kwargs VNone),
        as_str (dict_get_default "issue" kwargs VNone),
        as_str (dict_get_default "priority" kwargs (VStr "medium")) with
  | Some customer_id, Some issue, Some priority =>
      _create_ticket_tool customer_id issue priority now db
  | _, _, _ => untyped "create_ticket" kwargs now db
  end.

(** [self._get_customer_history_tool( **kwargs)] *)
Definition call_get_customer_history : tool := fun kwargs now db =>
  _ <- bind_keywords "_get_customer_history_tool" ["customer_id"] [] kwargs ;;
  match as_int (dict_get_default "customer_id" kwargs VNone) with
  | Some customer_id =>
      result <- _get_customer_history_tool customer_id db ;;
      Ret (result, db)
  | None => untyped "get_customer_history" kwargs now db
  end.

(** [self.tools] *)
Definition tools : list (string * tool) :=
  [ ("get_customer", call_get_customer);
    ("list_customers", call_list_customers);
    ("update_customer", call_update_customer);
    ("create_ticket", call_create_ticket);
    ("get_customer_history", call_get_customer_history) ].

(** [self.tools[tool_name]], [None] when [tool_name not in self.tools]. *)
Fixpoint lookup_tool (tool_name : string) (registry : list (string * tool))
  : option tool :=
  match registry with
  | [] => None
  | (name, f) :: rest =>
      if String.eqb tool_name name then Some f else lookup_tool tool_name rest
  end.

(** [call_tool].  An exception leaves the store as it was: no tool
    writes before a point where it can raise. *)
Definition call_tool (tool_name : string) (kwargs : pydict) (now : string)
  (db : store) : outcome (envelope * store) :=
  match lookup_tool tool_name tools with
  | None => Ret (Failure ("Unknown tool: " ++ tool_name), db)
  | Some f =>
      try_except (f kwargs now db)
                 (fun e => Ret (Failure (str_exn e), db))
  end.

End Registry.

End MCPServer.

Import MCPServer.

(** ** Tool client *)

Module Client.

(** The JSON body of a POST to [/call]: [{"tool": ..., "params": ...}]. *)
Record request : Type := mkRequest {
  req_tool : string;
  req_params : pydict
}.

(** What [requests.post] returns: the status code, and the body as
    [response.json()] reads it, [None] when the body is not JSON. *)
Record response : Type := mkResponse {
  status_code : Z;
  json_body : option pyvalue
}.

(** How [json.loads] ends on a [str]: with the parsed value, with
    [json.JSONDecodeError], or with another exception. *)
Inductive json_result : Type :=
| Parsed (v : pyvalue)
| JSONDecodeError
| Raised (e : exn).

(** [sys.get_int_max_str_digits()], the interpreter's default limit on
    the digits of a text converted to [int] (Python 3.11 on). *)
Definition int_max_str_digits : nat := 4300.

(** [sys.getrecursionlimit()], the interpreter's default limit on nested
    calls, which the JSON decoder spends one of per nested array. *)
Definition recursion_limit : nat := 1000.

(** [c * n], the text of [n] times the character [c]. *)
Fixpoint str_mul (c : ascii) (n : nat) : string :=
  match n with
  | O => EmptyString
  | S n' => String c (str_mul c n')
  end.

(** Every character of the text lies between [lo] and [hi]. *)
Fixpoint all_between (lo hi : nat) (s : string) : bool :=
  match s with
  | EmptyString => true
  | String c rest =>
      andb (andb (Nat.leb lo (nat_of_ascii c)) (Nat.leb (nat_of_ascii c) hi))
           (all_between lo hi rest)
  end.

(** [json.loads] where it meets a limit of the interpreter: an integer
    literal (of digits 1 to 9 here) with more digits than the limit, for
    which the conversion to [int] raises [ValueError], and arrays nested
    deeper than the recursion limit (a text of opening brackets only,
    here), which raise [RecursionError].  Every other text is left to
    [otherwise]. *)
Definition json_loads_limits (otherwise : string -> json_result)
  (data : string) : json_result :=
  if andb (all_between 49 57 data)
          (Nat.ltb int_max_str_digits (String.length data))
  then Raised (ValueError_int_max_str_digits (String.length data))
  else if andb (all_between 91 91 data)
               (Nat.ltb recursion_limit (String.length data))
  then Raised RecursionError
  else otherwise data.

Section Client.

(** [str(e)] of an exception. *)
Variable str_exn : exn -> string.

(** The network and the bridge behind it: [requests.post] with its
    30-second timeout either raises or returns a response. *)
Variable post : request -> outcome response.

(** [json.dumps(data, indent=2)] *)
Variable json_dumps_indent2 : pyvalue -> string.

(** [str(v)] of a list or dict. *)
Variable str_composite : pyvalue -> string.

(** [json.loads] on a [str]. *)
Variable json_loads : string -> json_result.

(** [str(v)] *)
Definition str (v : pyvalue) : string :=
  match v with
  | VNone => "None"
  | VBool true => "True"
  | VBool false => "False"
  | VInt z => str_int z
  | VStr s => s
  | VList _ | VDict _ => str_composite v
  end.

(** [isinstance(v, (dict, list))] *)
Definition is_dict_or_list (v : pyvalue) : bool :=
  match v with
  | VList _ | VDict _ => true
  | _ => false
  end.

(** [response.raise_for_status()] *)
Definition raise_for_status (r : response) : outcome unit :=
  if andb (400 <=? status_code r) (status_code r <? 600)
  then Raise (HTTPError (status_code r))
  else Ret tt.

(** [response.json()] *)
Definition response_json (r : response) : outcome pyvalue :=
  match json_body r with
  | Some v => Ret v
  | None => Raise ResponseJSONDecodeError
  end.

(** [result.get(k, default)]; a JSON value that is no dict has no [get]. *)
Definition result_get (result : pyvalue) (k : string) (default : pyvalue)
  : outcome pyvalue :=
  match result with
  | VDict d => Ret (dict_get_default k d default)
  | _ => Raise (AttributeError result "get")
  end.

(** The body of the [try] of [_call_mcp_tool]. *)
Definition _call_mcp_tool_try (tool_name : string) (params : pydict)
  : outcome string :=
  response <- post (mkRequest tool_name params) ;;
  _ <- raise_for_status response ;;
  result <- response_json response ;;
  success <- result_get result "success" VNone ;;
  if truthy success then
    data <- result_get result "data" VNone ;;
    if is_dict_or_list data
    then Ret (json_dumps_indent2 data)
    else Ret (str data)
  else
    error <- result_get result "error" (VStr "Unknown error") ;;
    Ret ("Error: " ++ str error)%string.

(** [_call_mcp_tool]: the result, and the requests handed to
    [requests.post] so far with this one added. *)
Definition _call_mcp_tool (tool_name : string) (params : pydict)
  (sent : list request) : outcome string * list request :=
  (try_except (_call_mcp_tool_try tool_name params)
              (fun e => Ret ("MCP call failed: " ++ str_exn e)%string),
   sent ++ [mkRequest tool_name params]).

Definition tool_get_customer (customer_id : Z) (sent : list request)
  : outcome string * list request :=
  _call_mcp_tool "get_customer" [("customer_id", VInt customer_id)] sent.

(** [params = {"limit": limit}], then [status] when it is truthy. *)
Definition list_customers_params (status : option string) (limit : Z)
  : pydict :=
  let params := [("limit", VInt limit)] in
  match status with
  | Some s => if truthy (VStr s) then params ++ [("status", VStr s)] else params
  | None => params
  end.

Definition tool_list_customers (status : option string) (limit : Z)
  (sent : list request) : outcome string * list request :=
  _call_mcp_tool "list_customers" (list_customers_params status limit) sent.

(** [tool_update_customer]: its [except] names [json.JSONDecodeError]
    only, any other exception of [json.loads] goes to the caller. *)
Definition tool_update_customer (customer_id : Z) (data : string)
  (sent : list request) : outcome string * list request :=
  match json_loads data with
  | JSONDecodeError =>
      (Ret "Error: Invalid JSON data. Data must be a valid JSON string.", sent)
  | Raised e => (Raise e, sent)
  | Parsed data_dict =>
      _call_mcp_tool "update_customer"
                     [("customer_id", VInt customer_id); ("data", data_dict)]
                     sent
  end.

Definition tool_create_ticket (customer_id : Z) (issue priority : string)
  (sent : list request) : outcome string * list request :=
  _call_mcp_tool "create_ticket"
                 [("customer_id", VInt customer_id); ("issue", VStr issue);
                  ("priority", VStr priority)]
                 sent.

Definition tool_get_customer_history (customer_id : Z) (sent : list request)
  : outcome string * list request :=
  _call_mcp_tool "get_customer_history" [("customer_id", VInt customer_id)]
                 sent.

End Client.

End Client.

(** ** Vocabulary of the specification *)

(** [rows] lists elements of [table] in the order of [table]. *)
Inductive subsequence {A : Type} : list A -> list A -> Prop :=
| subsequence_nil : subsequence [] []
| subsequence_skip (x : A) (rows table : list A) :
    subsequence rows table -> subsequence rows (x :: table)
| subsequence_take (x : A) (rows table : list A) :
    subsequence rows table -> subsequence (x :: rows) (x :: table).

(** [a] may come before [b] in a listing by [created_at], newest first. *)
Definition newest_first (a b : ticket) : Prop :=
  String.leb (t_created_at b) (t_created_at a) = true.


(** SQLite can bind the value to a parameter. *)
Definition bindable (v : pyvalue) : bool :=
  match bind_parameter 0 v with
  | Ret _ => true
  | Raise _ => false
  end.

(** What a TEXT column holds once the value has been bound and written. *)
Definition stored_text (v : pyvalue) : option string :=
  match bind_parameter 0 v with
  | Ret sv => text_affinity sv
  | Raise _ => None
  end.

(** [old] and [new] are the same table but for the rows with id
    [customer_id], which keep their id. *)
Definition same_but_for (customer_id : Z) (old new : list customer) : Prop :=
  Forall2 (fun row row' =>
             if c_id row =? customer_id then c_id row' = customer_id
             else row' = row)
          old new.

(** The value of a text column as the JSON of [dict(row)] shows it. *)
Definition json_of_text (v : option string) : pyvalue :=
  match v with
  | Some s => VStr s
  | None => VNone
  end.

(** ** Tool bridge: the HTTP endpoints of [mcp_server_standalone.py] *)

Module Bridge.

(** [dict(row)] of a row of [customers], the columns in table order. *)
Definition customer_to_json (c : customer) : pyvalue :=
  VDict [ ("id", VInt (c_id c));
          ("name", json_of_text (c_name c));
          ("email", json_of_text (c_email c));
          ("phone", json_of_text (c_phone c));
          ("status", json_of_text (c_status c));
          ("created_at", VStr (c_created_at c));
          ("updated_at", VStr (c_updated_at c)) ].

(** [dict(row)] of a row of [tickets]. *)
Definition ticket_to_json (t : ticket) : pyvalue :=
  VDict [ ("id", VInt (t_id t));
          ("customer_id", VInt (t_customer_id t));
          ("issue", VStr (t_issue t));
          ("status", VStr (t_status t));
          ("priority", VStr (t_priority t));
          ("created_at", VStr (t_created_at t)) ].

Definition payload_to_json (data : payload) : pyvalue :=
  match data with
  | Customer_row row => customer_to_json row
  | Customer_rows rows => VList (map customer_to_json rows)
  | Ticket_row row => ticket_to_json row
  | Ticket_rows rows => VList (map ticket_to_json rows)
  end.

(** The envelope as the dict the tools build and [JSONResponse] sends. *)
Definition envelope_to_json (env : envelope) : pyvalue :=
  match env with
  | Success data None =>
      VDict [("success", VBool true); ("data", payload_to_json data)]
  | Success data (Some count) =>
      VDict [("success", VBool true); ("data", payload_to_json data);
             ("count", VInt (Z.of_nat count))]
  | Failure error => VDict [("success", VBool false); ("error", VStr error)]
  end.

(** One entry of the list [GET /tools] answers with. *)
Record tool_description : Type := mkToolDescription {
  td_name : string;
  td_description : string;
  td_parameters : list (string * string)
}.

(** [mcp_tools_list] *)
Definition mcp_tools_list : list tool_description :=
  [ mkToolDescription "get_customer" "Get customer information by ID"
      [("customer_id", "integer")];
    mkToolDescription "list_customers"
      "List customers, optionally filtered by status"
      [("status", "string (optional)"); ("limit", "integer (optional)")];
    mkToolDescription "update_customer"
      "Update customer fields (name, email, phone, status)"
      [("customer_id", "integer"); ("data", "dict")];
    mkToolDescription "create_ticket" "Create a new support ticket"
      [("customer_id", "integer"); ("issue", "string");
       ("priority", "string (low/medium/high)")];
    mkToolDescription "get_customer_history"
      "Get ticket history for a customer"
      [("customer_id", "integer")] ].

(** The [TypeError]s of the call [mcp_server.call_tool(tool_name, **params)]
    that [call_tool] does not handle: [params] is no mapping, a key of
    [params] names a parameter that is bound already, [tool_name] cannot be
    looked up in a dict. *)
Inductive call_error : Type :=
| Not_a_mapping (params : pyvalue)
| Multiple_values (parameter : string)
| Unhashable (tool_name : pyvalue).

(** What the [try] of [mcp_call_tool] can meet. *)
Inductive raised : Type :=
| Raised_exn (e : exn)
| Raised_call (e : call_error).

Inductive attempt (A : Type) : Type :=
| Done (a : A)
| Failed (r : raised).

Arguments Done {A} a.
Arguments Failed {A} r.

Definition and_then {A B : Type} (m : attempt A) (k : A -> attempt B)
  : attempt B :=
  match m with
  | Done a => k a
  | Failed r => Failed r
  end.

(** [JSONResponse(content, status_code=...)].  Rendering the content is
    not a step of the embedding: an envelope here holds text that UTF-8
    encodes and integers of the tables, which [JSONResponse] renders.  In
    the source the rendering of the result stands inside the [try], so a
    result it refuses (a [str] with a lone surrogate, a float that is not
    finite; neither is a value of the embedding) is answered 500. *)
Record http_response : Type := mkHttpResponse {
  http_status : Z;
  http_content : envelope
}.

Section Bridge.

Variable str_exn : exn -> string.

(** [str(e)] of the [TypeError]s above. *)
Variable str_call_error : call_error -> string.

Variable untyped :
  string -> pydict -> string -> store -> outcome (envelope * store).

(** [body.get(k, default)] *)
Definition body_get (body : pyvalue) (k : string) (default : pyvalue)
  : attempt pyvalue :=
  match body with
  | VDict d => Done (dict_get_default k d default)
  | _ => Failed (Raised_exn (AttributeError body "get"))
  end.

(** [**params] in a call that already binds [self] and [tool_name]. *)
Definition keywords_of (params : pyvalue) : attempt pydict :=
  match params with
  | VDict d =>
      match find (fun kv => str_in (fst kv) ["self"; "tool_name"]) d with
      | Some (k, _) => Failed (Raised_call (Multiple_values k))
      | None => Done d
      end
  | _ => Failed (Raised_call (Not_a_mapping params))
  end.

(** [call_tool] on whatever [body.get("tool")] gave: [None], a [bool] or
    an [int] is no key of [self.tools], a [list] or [dict] cannot even be
    looked up.  The message of "Unknown tool" is an f-string, and the
    interpreter refuses to write an [int] of more digits than its limit;
    [call_tool] builds the message outside its [try]. *)
Definition call_tool_any (tool_name : pyvalue) (kwargs : pydict)
  (now : string) (db : store) : attempt (envelope * store) :=
  match tool_name with
  | VStr name =>
      match call_tool str_exn untyped name kwargs now db with
      | Ret result => Done result
      | Raise e => Failed (Raised_exn e)
      end
  | VNone => Done (Failure "Unknown tool: None", db)
  | VBool b =>
      Done (Failure ("Unknown tool: " ++ (if b then "True" else "False")), db)
  | VInt z =>
      let digits := String.length (str_int (Z.abs z)) in
      if Nat.ltb Client.int_max_str_digits digits
      then Failed (Raised_exn (ValueError_int_max_str_digits digits))
      else Done (Failure ("Unknown tool: " ++ str_int z), db)
  | VList _ | VDict _ => Failed (Raised_call (Unhashable tool_name))
  end.

(** The body of the [try] of [mcp_call_tool]; [request_json] is what
    [await request.json()] gives. *)
Definition mcp_call_tool_try (request_json : outcome pyvalue) (now : string)
  (db : store) : attempt (envelope * store) :=
  match request_json with
  | Raise e => Failed (Raised_exn e)
  | Ret body =>
      and_then (body_get body "tool" VNone) (fun tool_name =>
      and_then (body_get body "params" (VDict [])) (fun params =>
      and_then (keywords_of params) (fun kwargs =>
      call_tool_any tool_name kwargs now db)))
  end.

Definition str_raised (r : raised) : string :=
  match r with
  | Raised_exn e => str_exn e
  | Raised_call e => str_call_error e
  end.

(** [mcp_call_tool]: the response and the store it leaves, for a result
    that [JSONResponse] renders.  What the call raises is answered 500,
    the store as before. *)
Definition mcp_call_tool (request_json : outcome pyvalue) (now : string)
  (db : store) : http_response * store :=
  match mcp_call_tool_try request_json now db with
  | Done (result, db') => (mkHttpResponse 200 result, db')
  | Failed r => (mkHttpResponse 500 (Failure (str_raised r)), db)
  end.

(** [json={"tool": tool_name, "params": params}] *)
Definition request_to_json (r : Client.request) : pyvalue :=
  VDict [("tool", VStr (Client.req_tool r));
         ("params", VDict (Client.req_params r))].

(** [requests.post] when the network delivers: the bridge reads the body
    as it was sent and its response comes back. *)
Definition bridge_post (now : string) (db : store) (r : Client.request)
  : outcome Client.response :=
  let response := fst (mcp_call_tool (Ret (request_to_json r)) now db) in
  Ret (Client.mkResponse (http_status response)
                         (Some (envelope_to_json (http_content response)))).

End Bridge.

End Bridge.

(** ** The text of the UPDATE statement *)

(** [", ".join([f"{k}=?" for k in updates.keys()])] *)
Definition set_clause (updates : pydict) : string :=
  String.concat ", " (map (fun kv => (fst kv ++ "=?")%string) updates).

(** [f"UPDATE customers SET {set_clause}, updated_at=? WHERE id=?"] *)
Definition update_statement (updates : pydict) : string :=
  ("UPDATE customers SET " ++ set_clause updates ++
   ", updated_at=? WHERE id=?")%string.

(** How often the character occurs in the text. *)
Fixpoint count_char (c : ascii) (s : string) : nat :=
  match s with
  | EmptyString => O
  | String c' rest =>
      ((if Ascii.eqb c c' then 1 else 0) + count_char c rest)%nat
  end.

(** ** Vocabulary for the store over time *)

(** One call of a tool that writes, with arguments of the annotated
    types, takes [db] to [db']. *)
Inductive step : store -> store -> Prop :=
| step_update_customer (customer_id : Z) (data : pydict) (now : string)
    (db db' : store) (env : envelope) :
    _update_customer_tool customer_id data now db = Ret (env, db') ->
    step db db'
| step_create_ticket (customer_id : Z) (issue priority now : string)
    (db db' : store) (env : envelope) :
    _create_ticket_tool customer_id issue priority now db = Ret (env, db') ->
    step db db'.

(** The stores the tools can reach from the one seeded at [seeded_at]. *)
Inductive reachable (seeded_at : string) : store -> Prop :=
| reachable_seeded : reachable seeded_at (init_db seeded_at)
| reachable_step (db db' : store) :
    reachable seeded_at db -> step db db' -> reachable seeded_at db'.

(** The text the tool client makes of an envelope. *)
Definition render_envelope (json_dumps_indent2 : pyvalue -> string)
  (env : envelope) : string :=
  match env with
  | Success data _ => json_dumps_indent2 (Bridge.payload_to_json data)
  | Failure error => ("Error: " ++ error)%string
  end.

(** * Properties *)

(** ** Lists, rows and keys *)

Lemma fetchone_filter_some {A : Type} (f : A -> bool) (rows : list A) (x : A) :
  fetchone (filter f rows) = Some x -> In x rows /\ f x = true.
Proof.
  unfold fetchone.
  induction rows as [| y rows IH]; simpl; [discriminate |].
  destruct (f y) eqn:Hy; simpl.
  - intros [= ->]. auto.
  - intros H. destruct (IH H). auto.
Qed.

Lemma fetchone_filter_none {A : Type} (f : A -> bool) (rows : list A) :
  fetchone (filter f rows) = None -> forall x, In x rows -> f x = false.
Proof.
  unfold fetchone.
  induction rows as [| y rows IH]; simpl; [tauto |].
  destruct (f y) eqn:Hy; simpl; [discriminate |].
  intros H x [<- | Hx]; auto.
Qed.

(** ** Binding an [int] *)

Lemma fits_int64_range (z : Z) :
  fits_int64 z = true <-> - 2 ^ 63 <= z < 2 ^ 63.
Proof.
  unfold fits_int64. rewrite andb_true_iff, Z.leb_le, Z.ltb_lt. tauto.
Qed.

Lemma bind_integer (z : Z) :
  bind_parameters 0 [VInt z] =
    if fits_int64 z then Ret [SqlInteger z] else Raise (OverflowError z).
Proof.
  unfold bind_parameters, bind_parameter.
  destruct (fits_int64 z); reflexivity.
Qed.

Lemma get_customer_in_range (customer_id : Z) (db : store) :
  fits_int64 customer_id = true ->
  _get_customer_tool customer_id db =
    match fetchone (select_customers_by_id customer_id db) with
    | Some row => Ret (Success (Customer_row row) None)
    | None => Ret (Failure ("Customer " ++ str_int customer_id ++ " not found"))
    end.
Proof.
  intros Hfits. unfold _get_customer_tool.
  rewrite bind_integer, Hfits. reflexivity.
Qed.

Lemma get_customer_out_of_range (customer_id : Z) (db : store) :
  fits_int64 customer_id = false ->
  _get_customer_tool customer_id db = Raise (OverflowError customer_id).
Proof.
  intros Hfits. unfold _get_customer_tool.
  rewrite bind_integer, Hfits. reflexivity.
Qed.

(** ** get_customer *)

(** C5.  For a [customer_id] that SQLite's INTEGER (signed 64 bits) can
    hold, [get_customer] answers with the row whose id is the one asked for
    when the table has one, and with "Customer <id> not found" when it has
    none; for a [customer_id] outside that range it raises [OverflowError];
    on the seeded store id 99999 is not found, also through [call_tool]. *)
Theorem get_customer_by_id :
  (forall (customer_id : Z) (db : store),
      fits_int64 customer_id = true ->
      (exists row,
          In row (customers db) /\ c_id row = customer_id /\
          _get_customer_tool customer_id db =
            Ret (Success (Customer_row row) None))
      \/
      ((forall row, In row (customers db) -> c_id row <> customer_id) /\
       _get_customer_tool customer_id db =
         Ret (Failure ("Customer " ++ str_int customer_id ++ " not found")))) /\
  (forall (customer_id : Z) (db : store),
      fits_int64 customer_id = false ->
      _get_customer_tool customer_id db = Raise (OverflowError customer_id)) /\
  (forall seeded_at : string,
      _get_customer_tool 99999 (init_db seeded_at) =
        Ret (Failure "Customer 99999 not found")) /\
  (forall str_exn untyped (seeded_at now : string),
      call_tool str_exn untyped "get_customer" [("customer_id", VInt 99999)]
                now (init_db seeded_at) =
        Ret (Failure "Customer 99999 not found", init_db seeded_at)).
Proof.
  split; [| split; [| split]].
  - intros customer_id db Hfits. rewrite (get_customer_in_range _ _ Hfits).
    destruct (fetchone (select_customers_by_id customer_id db)) as [row |] eqn:E.
    + left. exists row.
      apply fetchone_filter_some in E as [Hin Hid].
      apply Z.eqb_eq in Hid. auto.
    + right. split; [| reflexivity].
      intros row Hin Heq.
      pose proof (fetchone_filter_none _ _ E row Hin) as Hne.
      apply Z.eqb_neq in Hne. contradiction.
  - intros customer_id db. apply get_customer_out_of_range.
  - reflexivity.
  - reflexivity.
Qed.

(** The theorem at the ids 3, 99999 and 2^63 on the seeded store. *)
Lemma get_customer_by_id_witness :
  (exists row,
      c_id row = 3 /\
      _get_customer_tool 3 (init_db "2025-01-01T00:00:00+00:00") =
        Ret (Success (Customer_row row) None)) /\
  _get_customer_tool 99999 (init_db "2025-01-01T00:00:00+00:00") =
    Ret (Failure "Customer 99999 not found") /\
  _get_customer_tool (2 ^ 63) (init_db "2025-01-01T00:00:00+00:00") =
    Raise (OverflowError (2 ^ 63)).
Proof.
  destruct get_customer_by_id as [Hin [Hout [Hseed _]]].
  split; [| split].
  - destruct (Hin 3 (init_db "2025-01-01T00:00:00+00:00") eq_refl)
      as [[row [_ [Hid Hget]]] | [Hnone _]].
    + exists row. split; assumption.
    + exfalso.
      apply (Hnone (mkCustomer 3 (Some "Charlie Disabled")
                               (Some "charlie@example.com")
                               (Some "333-333-3333") (Some "disabled")
                               "2025-01-01T00:00:00+00:00"
                               "2025-01-01T00:00:00+00:00"));
        [right; right; left; reflexivity | reflexivity].
  - apply Hseed.
  - apply Hout. reflexivity.
Defined.

(** An id that Python holds and SQLite's INTEGER does not: the tool
    neither finds a customer nor answers "not found", it raises. *)
Lemma get_customer_out_of_range_counterexample :
  fits_int64 (2 ^ 63) = false /\
  _get_customer_tool (2 ^ 63) (init_db "2025-01-01T00:00:00+00:00") =
    Raise (OverflowError (2 ^ 63)) /\
  _get_customer_tool (2 ^ 63) (init_db "2025-01-01T00:00:00+00:00") <>
    Ret (Failure ("Customer " ++ str_int (2 ^ 63) ++ " not found")).
Proof.
  split; [reflexivity | split; [reflexivity | discriminate]].
Qed.

(** ** list_customers *)

Lemma subsequence_refl {A : Type} (l : list A) : subsequence l l.
Proof. induction l; constructor; assumption. Qed.

Lemma subsequence_filter {A : Type} (f : A -> bool) (l : list A) :
  subsequence (filter f l) l.
Proof.
  induction l as [| x l IH]; simpl; [constructor |].
  destruct (f x); constructor; assumption.
Qed.

Lemma subsequence_empty {A : Type} (l : list A) : subsequence [] l.
Proof. induction l; constructor; assumption. Qed.

Lemma subsequence_firstn {A : Type} (n : nat) (l : list A) :
  subsequence (firstn n l) l.
Proof.
  revert n. induction l as [| x l IH]; intros [| n]; simpl.
  - constructor.
  - constructor.
  - apply subsequence_empty.
  - apply subsequence_take, IH.
Qed.

Lemma subsequence_trans {A : Type} (l1 l2 l3 : list A) :
  subsequence l1 l2 -> subsequence l2 l3 -> subsequence l1 l3.
Proof.
  intros H12 H23. revert l1 H12.
  induction H23 as [| x l2 l3 H IH | x l2 l3 H IH]; intros l1 H12.
  - assumption.
  - apply subsequence_skip. auto.
  - inversion H12; subst.
    + apply subsequence_skip. auto.
    + apply subsequence_take. auto.
Qed.

Lemma subsequence_In {A : Type} (l1 l2 : list A) (x : A) :
  subsequence l1 l2 -> In x l1 -> In x l2.
Proof.
  induction 1; simpl; intuition.
Qed.

Lemma subsequence_map {A B : Type} (f : A -> B) (l1 l2 : list A) :
  subsequence l1 l2 -> subsequence (map f l1) (map f l2).
Proof. induction 1; simpl; constructor; assumption. Qed.

Lemma subsequence_sorted {A : Type} (R : A -> A -> Prop) (l1 l2 : list A) :
  subsequence l1 l2 -> StronglySorted R l2 -> StronglySorted R l1.
Proof.
  induction 1 as [| x l1 l2 H IH | x l1 l2 H IH]; intros Hs.
  - constructor.
  - apply StronglySorted_inv in Hs as [Hs _]. auto.
  - apply StronglySorted_inv in Hs as [Hs Hall]. constructor; [auto |].
    rewrite Forall_forall in *. intros y Hy.
    apply Hall. eapply subsequence_In; eassumption.
Qed.

Lemma sql_limit_subsequence {A : Type} (limit : Z) (rows : list A) :
  subsequence (sql_limit limit rows) rows.
Proof.
  unfold sql_limit. destruct (limit <? 0).
  - apply subsequence_refl.
  - apply subsequence_firstn.
Qed.

Lemma sql_limit_length {A : Type} (limit : Z) (rows : list A) :
  0 <= limit -> Z.of_nat (length (sql_limit limit rows)) <= limit.
Proof.
  intros Hl. unfold sql_limit.
  destruct (limit <? 0) eqn:E; [apply Z.ltb_lt in E; lia |].
  pose proof (firstn_le_length (Z.to_nat limit) rows). lia.
Qed.

Lemma status_is_spec (s : string) (c : customer) :
  status_is s c = true <-> c_status c = Some s.
Proof.
  unfold status_is. destruct (c_status c) as [s' |].
  - rewrite String.eqb_eq. split; congruence.
  - split; discriminate.
Qed.

(** The rows [_list_customers_tool] selects, by the filter in force. *)
Lemma list_customers_rows (status : option string) (limit : Z) (db : store) :
  fits_int64 limit = true ->
  exists rows,
    _list_customers_tool status limit db =
      Ret (Success (Customer_rows rows) (Some (length rows))) /\
    ((exists s, status = Some s /\ s <> "" /\
                rows = sql_limit limit (filter (status_is s) (customers db)))
     \/
     ((status = None \/ status = Some "") /\
      rows = sql_limit limit (customers db))).
Proof.
  intros Hfits. unfold _list_customers_tool.
  rewrite bind_integer, Hfits.
  unfold bind_parameters, bind_parameter. rewrite Hfits.
  destruct status as [s |]; simpl.
  - destruct (String.eqb s "") eqn:E; simpl.
    + apply String.eqb_eq in E. subst s.
      eexists. split; [reflexivity |]. right. auto.
    + apply String.eqb_neq in E.
      eexists. split; [reflexivity |]. left. exists s. auto.
  - eexists. split; [reflexivity |]. right. auto.
Qed.

Lemma list_customers_out_of_range (status : option string) (limit : Z)
  (db : store) :
  fits_int64 limit = false ->
  _list_customers_tool status limit db = Raise (OverflowError limit).
Proof.
  intros Hfits. unfold _list_customers_tool.
  rewrite bind_integer, Hfits.
  unfold bind_parameters, bind_parameter. rewrite Hfits.
  destruct status as [s |]; simpl; [destruct (String.eqb s "") |];
    reflexivity.
Qed.

Lemma list_customers_returns (status : option string) (limit : Z) (db : store)
  (env : envelope) :
  _list_customers_tool status limit db = Ret env -> fits_int64 limit = true.
Proof.
  intros Hcall. destruct (fits_int64 limit) eqn:Hfits; [reflexivity |].
  rewrite (list_customers_out_of_range _ _ _ Hfits) in Hcall. discriminate.
Qed.

Lemma sql_limit_negative {A : Type} (limit : Z) (rows : list A) :
  limit < 0 -> sql_limit limit rows = rows.
Proof.
  intros Hl. unfold sql_limit.
  destruct (limit <? 0) eqn:E; [reflexivity | apply Z.ltb_ge in E; lia].
Qed.

(** C7, as the code has it.  For a limit within signed 64 bits
    [list_customers] returns rows taken from the table in table order
    (ascending id in a well-formed store), with [count] their number; under
    a filter that is not the empty string every row has exactly that
    status.  A limit that is not negative bounds their number; a negative
    one bounds nothing, and all rows of the status, or all rows of the
    table when there is no filter or the empty one, come back.  A limit
    outside signed 64 bits makes the tool raise [OverflowError].  So
    [status="active"], [limit=2] gives at most two rows, all active. *)
Theorem list_customers_limit_and_filter
  (status : option string) (limit : Z) (db : store) :
  (fits_int64 limit = true ->
   exists rows,
     _list_customers_tool status limit db =
       Ret (Success (Customer_rows rows) (Some (length rows))) /\
     (0 <= limit -> Z.of_nat (length rows) <= limit) /\
     (limit < 0 ->
      (forall s, status = Some s -> s <> "" ->
                 rows = filter (status_is s) (customers db)) /\
      (status = None \/ status = Some "" -> rows = customers db)) /\
     (forall s, status = Some s -> s <> "" ->
                Forall (fun row => c_status row = Some s) rows) /\
     subsequence rows (customers db) /\
     (well_formed db -> StronglySorted Z.lt (map c_id rows))) /\
  (fits_int64 limit = false ->
   _list_customers_tool status limit db = Raise (OverflowError limit)).
Proof.
  split; [| apply list_customers_out_of_range].
  intros Hfits.
  destruct (list_customers_rows status limit db Hfits) as [rows [Hcall Hrows]].
  exists rows. split; [exact Hcall |].
  assert (Hsub : subsequence rows (customers db)).
  { destruct Hrows as [[s [_ [_ ->]]] | [_ ->]].
    - eapply subsequence_trans;
        [apply sql_limit_subsequence | apply subsequence_filter].
    - apply sql_limit_subsequence. }
  split; [| split; [| split; [| split]]].
  - intros Hlimit.
    destruct Hrows as [[s [_ [_ ->]]] | [_ ->]]; apply sql_limit_length; auto.
  - intros Hneg. split.
    + intros s Hs Hne.
      destruct Hrows as [[s' [Hs' [_ ->]]] | [[Hnone | Hempty] _]];
        try congruence.
      assert (s' = s) by congruence. subst s'.
      apply sql_limit_negative, Hneg.
    + intros Hnone.
      destruct Hrows as [[s' [Hs' [Hne _]]] | [_ ->]].
      * destruct Hnone; congruence.
      * apply sql_limit_negative, Hneg.
  - intros s Hs Hne.
    destruct Hrows as [[s' [Hs' [_ ->]]] | [[Hnone | Hempty] _]];
      try congruence.
    assert (s' = s) by congruence. subst s'.
    apply Forall_forall. intros row Hrow.
    apply (subsequence_In _ _ _ (sql_limit_subsequence _ _)) in Hrow.
    apply filter_In in Hrow as [_ Hrow].
    apply status_is_spec. exact Hrow.
  - exact Hsub.
  - intros [Hwf _].
    eapply subsequence_sorted; [apply subsequence_map; exact Hsub | exact Hwf].
Qed.

(** The theorem at [status="active"], [limit=2] on the seeded store, and at
    the limit 2^63. *)
Lemma list_customers_limit_and_filter_witness :
  (exists rows,
      _list_customers_tool (Some "active") 2
                           (init_db "2025-01-01T00:00:00+00:00") =
        Ret (Success (Customer_rows rows) (Some (length rows))) /\
      Z.of_nat (length rows) <= 2 /\
      Forall (fun row => c_status row = Some "active") rows) /\
  _list_customers_tool (Some "active") (2 ^ 63)
                       (init_db "2025-01-01T00:00:00+00:00") =
    Raise (OverflowError (2 ^ 63)).
Proof.
  split.
  - destruct (proj1 (list_customers_limit_and_filter
                       (Some "active") 2 (init_db "2025-01-01T00:00:00+00:00"))
                    eq_refl)
      as [rows [Hcall [Hlen [_ [Hstatus _]]]]].
    exists rows. split; [exact Hcall |]. split.
    + apply Hlen. lia.
    + apply Hstatus; [reflexivity | discriminate].
  - apply (proj2 (list_customers_limit_and_filter
                    (Some "active") (2 ^ 63)
                    (init_db "2025-01-01T00:00:00+00:00"))).
    reflexivity.
Defined.

(** C7 as written fails three times on the seeded store: a negative limit
    bounds nothing (all six rows come back for [limit = -1]), the empty
    string given as filter selects rows whose status is not the empty
    string, and a limit outside signed 64 bits is answered by no
    envelope. *)
Lemma list_customers_any_limit_counterexample :
  (exists rows,
      _list_customers_tool None (-1) (init_db "2025-01-01T00:00:00+00:00") =
        Ret (Success (Customer_rows rows) (Some 6%nat)) /\
      length rows = 6%nat /\
      ~ (Z.of_nat (length rows) <= -1)) /\
  (exists row rows,
      _list_customers_tool (Some "") 1 (init_db "2025-01-01T00:00:00+00:00") =
        Ret (Success (Customer_rows (row :: rows)) (Some 1%nat)) /\
      c_status row = Some "active" /\
      c_status row <> Some "") /\
  _list_customers_tool None (2 ^ 63) (init_db "2025-01-01T00:00:00+00:00") =
    Raise (OverflowError (2 ^ 63)).
Proof.
  split; [| split].
  - eexists. split; [reflexivity |]. split; [reflexivity |]. simpl. lia.
  - eexists. eexists. split; [reflexivity |]. split; [reflexivity |].
    discriminate.
  - reflexivity.
Qed.

(** C10.  The empty string as status filter is no filter, whatever the
    limit.  The client leaves a falsy status out of the request, so both
    requests are the same and so are the calls; the server, handed the
    empty string directly, does as for no status: it answers with the
    first [limit] rows of the table whatever their status (all of them for
    a negative limit), or raises [OverflowError] for a limit SQLite cannot
    hold, in both cases alike.  No call selects by the empty status: an
    answer that holds a row with empty status is the unfiltered one. *)
Theorem empty_status_is_no_filter (limit : Z) (db : store) :
  Client.list_customers_params (Some "") limit =
    Client.list_customers_params None limit /\
  dict_get "status" (Client.list_customers_params (Some "") limit) = None /\
  (forall str_exn untyped now,
      call_tool str_exn untyped "list_customers"
                (Client.list_customers_params (Some "") limit) now db =
      call_tool str_exn untyped "list_customers"
                (Client.list_customers_params None limit) now db) /\
  _list_customers_tool (Some "") limit db = _list_customers_tool None limit db /\
  _list_customers_tool (Some "") limit db =
    (if fits_int64 limit
     then Ret (Success (Customer_rows (sql_limit limit (customers db)))
                       (Some (length (sql_limit limit (customers db)))))
     else Raise (OverflowError limit)) /\
  (forall status rows count row,
      _list_customers_tool status limit db =
        Ret (Success (Customer_rows rows) count) ->
      In row rows -> c_status row = Some "" ->
      rows = sql_limit limit (customers db)).
Proof.
  split; [reflexivity |]. split; [reflexivity |]. split; [reflexivity |].
  split; [reflexivity |]. split.
  - destruct (fits_int64 limit) eqn:Hfits.
    + destruct (list_customers_rows (Some "") limit db Hfits)
        as [rows [Hcall [[s [Hs [Hne _]]] | [_ ->]]]];
        [congruence | exact Hcall].
    + apply list_customers_out_of_range, Hfits.
  - intros status rows count row Hcall Hin Hempty.
    pose proof (list_customers_returns _ _ _ _ Hcall) as Hfits.
    destruct (list_customers_rows status limit db Hfits)
      as [rows' [Hcall' Hrows]].
    rewrite Hcall' in Hcall. injection Hcall as -> _.
    destruct Hrows as [[s [_ [Hne ->]]] | [_ ->]]; [| reflexivity].
    exfalso.
    apply (subsequence_In _ _ _ (sql_limit_subsequence _ _)) in Hin.
    apply filter_In in Hin as [_ Hrow].
    apply status_is_spec in Hrow. congruence.
Qed.

(** ** get_customer_history *)

Lemma string_leb_cases (a b : string) :
  String.leb a b = true <-> a = b \/ String_as_OT.lt a b.
Proof.
  unfold String.leb. change (String.compare a b) with (String_as_OT.compare a b).
  destruct (String_as_OT.compare_spec a b) as [Heq | Hlt | Hgt].
  - split; auto.
  - split; auto.
  - split; [discriminate |].
    intros [-> | Hlt].
    + exfalso. eapply StrictOrder_Irreflexive. exact Hgt.
    + exfalso. eapply StrictOrder_Irreflexive.
      eapply StrictOrder_Transitive; eassumption.
Qed.

Lemma string_leb_trans (a b c : string) :
  String.leb a b = true -> String.leb b c = true -> String.leb a c = true.
Proof.
  rewrite !string_leb_cases.
  intros [-> | Hab] [-> | Hbc]; auto.
  right. eapply StrictOrder_Transitive; eassumption.
Qed.

Lemma newest_first_trans (a b c : ticket) :
  newest_first a b -> newest_first b c -> newest_first a c.
Proof.
  unfold newest_first. intros Hab Hbc. eapply string_leb_trans; eassumption.
Qed.

Lemma insert_desc_perm (t : ticket) (rows : list ticket) :
  Permutation (insert_desc t rows) (t :: rows).
Proof.
  induction rows as [| u rows IH]; simpl.
  - apply Permutation_refl.
  - destruct (String.leb (t_created_at u) (t_created_at t)).
    + apply Permutation_refl.
    + eapply perm_trans; [apply perm_skip, IH | apply perm_swap].
Qed.

Lemma order_by_created_at_desc_perm (rows : list ticket) :
  Permutation (order_by_created_at_desc rows) rows.
Proof.
  induction rows as [| t rows IH]; simpl.
  - apply perm_nil.
  - eapply perm_trans; [apply insert_desc_perm | apply perm_skip, IH].
Qed.

Lemma insert_desc_sorted (t : ticket) (rows : list ticket) :
  StronglySorted newest_first rows ->
  StronglySorted newest_first (insert_desc t rows).
Proof.
  induction rows as [| u rows IH]; simpl; intros Hs.
  - constructor; constructor.
  - destruct (String.leb (t_created_at u) (t_created_at t)) eqn:E.
    + constructor; [exact Hs |].
      apply StronglySorted_inv in Hs as [_ Hall].
      constructor; [exact E |].
      rewrite Forall_forall in *. intros v Hv.
      eapply newest_first_trans; [exact E | auto].
    + apply StronglySorted_inv in Hs as [Hs Hall].
      constructor; [auto |].
      rewrite Forall_forall in *. intros v Hv.
      apply (Permutation_in _ (insert_desc_perm t rows)) in Hv.
      destruct Hv as [Hv | Hv]; [subst v | auto].
      unfold newest_first.
      destruct (String.leb_total (t_created_at u) (t_created_at t)) as [H | H];
        [congruence | exact H].
Qed.

Lemma order_by_created_at_desc_sorted (rows : list ticket) :
  StronglySorted newest_first (order_by_created_at_desc rows).
Proof.
  induction rows as [| t rows IH]; simpl.
  - constructor.
  - apply insert_desc_sorted, IH.
Qed.

Lemma get_customer_history_in_range (customer_id : Z) (db : store) :
  fits_int64 customer_id = true ->
  _get_customer_history_tool customer_id db =
    Ret (Success (Ticket_rows (select_tickets_by_customer customer_id db))
                 (Some (length (select_tickets_by_customer customer_id db)))).
Proof.
  intros Hfits. unfold _get_customer_history_tool.
  rewrite bind_integer, Hfits. reflexivity.
Qed.

Lemma get_customer_history_out_of_range (customer_id : Z) (db : store) :
  fits_int64 customer_id = false ->
  _get_customer_history_tool customer_id db = Raise (OverflowError customer_id).
Proof.
  intros Hfits. unfold _get_customer_history_tool.
  rewrite bind_integer, Hfits. reflexivity.
Qed.

(** C6.  For a [customer_id] within signed 64 bits [get_customer_history]
    answers with a success envelope.  Its rows are the tickets of the table
    with that [customer_id], each once, newest [created_at] first, and
    [count] is their number; with no such ticket the rows are empty and
    [count] is 0.  For a [customer_id] outside that range it raises
    [OverflowError].  Customer 1 of the seeded store has exactly two
    tickets. *)
Theorem get_customer_history_newest_first :
  (forall (customer_id : Z) (db : store),
      fits_int64 customer_id = true ->
      exists rows,
        _get_customer_history_tool customer_id db =
          Ret (Success (Ticket_rows rows) (Some (length rows))) /\
        Permutation rows
          (filter (fun t => t_customer_id t =? customer_id) (tickets db)) /\
        StronglySorted newest_first rows /\
        ((forall t, In t (tickets db) -> t_customer_id t <> customer_id) ->
         _get_customer_history_tool customer_id db =
           Ret (Success (Ticket_rows []) (Some 0%nat)))) /\
  (forall (customer_id : Z) (db : store),
      fits_int64 customer_id = false ->
      _get_customer_history_tool customer_id db =
        Raise (OverflowError customer_id)) /\
  (forall seeded_at : string,
      exists first second,
        _get_customer_history_tool 1 (init_db seeded_at) =
          Ret (Success (Ticket_rows [first; second]) (Some 2%nat)) /\
        t_customer_id first = 1 /\ t_customer_id second = 1 /\
        t_id first <> t_id second).
Proof.
  split; [| split].
  - intros customer_id db Hfits.
    rewrite (get_customer_history_in_range _ _ Hfits).
    exists (select_tickets_by_customer customer_id db).
    unfold select_tickets_by_customer.
    split; [reflexivity |].
    split; [apply order_by_created_at_desc_perm |].
    split; [apply order_by_created_at_desc_sorted |].
    intros Hnone.
    assert (E : filter (fun t => t_customer_id t =? customer_id) (tickets db)
                = []).
    { induction (tickets db) as [| t ts IH]; [reflexivity |]. simpl.
      destruct (t_customer_id t =? customer_id) eqn:Ht.
      - apply Z.eqb_eq in Ht. exfalso. apply (Hnone t); simpl; auto.
      - apply IH. intros u Hu. apply Hnone. simpl. auto. }
    rewrite E. reflexivity.
  - intros customer_id db. apply get_customer_history_out_of_range.
  - intros seeded_at.
    rewrite (get_customer_history_in_range 1 _ eq_refl).
    unfold select_tickets_by_customer. simpl.
    rewrite (proj2 (string_leb_cases seeded_at seeded_at) (or_introl eq_refl)).
    do 2 eexists. split; [reflexivity |]. simpl.
    repeat split. discriminate.
Qed.

(** The theorem at customer 1 of the seeded store, at a customer without
    tickets and at the id 2^63. *)
Lemma get_customer_history_newest_first_witness :
  (exists rows,
      _get_customer_history_tool 1 (init_db "2025-01-01T00:00:00+00:00") =
        Ret (Success (Ticket_rows rows) (Some (length rows))) /\
      StronglySorted newest_first rows) /\
  _get_customer_history_tool 3 (init_db "2025-01-01T00:00:00+00:00") =
    Ret (Success (Ticket_rows []) (Some 0%nat)) /\
  _get_customer_history_tool (2 ^ 63) (init_db "2025-01-01T00:00:00+00:00") =
    Raise (OverflowError (2 ^ 63)).
Proof.
  destruct get_customer_history_newest_first as [Hin [Hout _]].
  split; [| split].
  - destruct (Hin 1 (init_db "2025-01-01T00:00:00+00:00") eq_refl)
      as [rows [Hcall [_ [Hsorted _]]]].
    exists rows. split; assumption.
  - destruct (Hin 3 (init_db "2025-01-01T00:00:00+00:00") eq_refl)
      as [rows [_ [_ [_ Hnone]]]].
    apply Hnone. intros t Ht.
    repeat (destruct Ht as [<- | Ht]; [discriminate |]).
    destruct Ht.
  - apply Hout. reflexivity.
Defined.

(** An id that Python holds and SQLite's INTEGER does not: the tool
    answers with no envelope, it raises. *)
Lemma get_customer_history_out_of_range_counterexample :
  fits_int64 (2 ^ 63) = false /\
  _get_customer_history_tool (2 ^ 63) (init_db "2025-01-01T00:00:00+00:00") =
    Raise (OverflowError (2 ^ 63)) /\
  _get_customer_history_tool (2 ^ 63) (init_db "2025-01-01T00:00:00+00:00") <>
    Ret (Success (Ticket_rows []) (Some 0%nat)).
Proof.
  split; [reflexivity | split; [reflexivity | discriminate]].
Qed.

(** ** create_ticket *)

Lemma filter_nothing {A : Type} (f : A -> bool) (rows : list A) :
  (forall x, In x rows -> f x = false) -> filter f rows = [].
Proof.
  induction rows as [| y rows IH]; simpl; intros H; [reflexivity |].
  rewrite (H y) by auto. apply IH. auto.
Qed.

Lemma next_ticket_id_fresh (db : store) (t : ticket) :
  In t (tickets db) -> t_id t < next_ticket_id db.
Proof.
  unfold next_ticket_id.
  induction (tickets db) as [| u rows IH]; simpl; [tauto |].
  intros [-> | Hin]; [lia |].
  specialize (IH Hin). lia.
Qed.

Lemma next_ticket_id_positive (db : store) : 0 < next_ticket_id db.
Proof.
  unfold next_ticket_id.
  induction (tickets db) as [| u rows IH]; simpl; lia.
Qed.

(** The SELECT that follows the INSERT finds the new row and no other. *)
Lemma select_inserted_ticket (customer_id : Z) (issue status priority
  created_at : string) (db : store) :
  let row := mkTicket (next_ticket_id db) customer_id issue status priority
                      created_at in
  insert_ticket customer_id issue status priority created_at db =
    (next_ticket_id db, mkStore (customers db) (tickets db ++ [row])) /\
  select_tickets_by_id (next_ticket_id db)
                       (mkStore (customers db) (tickets db ++ [row])) = [row].
Proof.
  intros row. split; [reflexivity |].
  unfold select_tickets_by_id. simpl. rewrite filter_app. simpl.
  rewrite Z.eqb_refl, filter_nothing; [reflexivity |].
  intros t Ht. apply Z.eqb_neq.
  pose proof (next_ticket_id_fresh db t Ht). lia.
Qed.

Lemma str_in_spec (x : string) (xs : list string) :
  str_in x xs = true <-> In x xs.
Proof.
  unfold str_in. rewrite existsb_exists. split.
  - intros [y [Hy E]]. apply String.eqb_eq in E. subst. exact Hy.
  - intros H. exists x. split; [exact H | apply String.eqb_refl].
Qed.

(** The three ways [_create_ticket_tool] ends. *)
Lemma create_ticket_cases
  (customer_id : Z) (issue priority now : string) (db : store) :
  (In (lower priority) priorities /\ fits_int64 customer_id = true /\
   _create_ticket_tool customer_id issue priority now db =
     Ret (Success (Ticket_row (mkTicket (next_ticket_id db) customer_id issue
                                        "open" (lower priority) now)) None,
          mkStore (customers db)
                  (tickets db ++
                   [mkTicket (next_ticket_id db) customer_id issue "open"
                             (lower priority) now])))
  \/
  (In (lower priority) priorities /\ fits_int64 customer_id = false /\
   _create_ticket_tool customer_id issue priority now db =
     Raise (OverflowError customer_id))
  \/
  (~ In (lower priority) priorities /\
   _create_ticket_tool customer_id issue priority now db =
     Ret (Failure "Priority must be 'low', 'medium', or 'high'", db)).
Proof.
  unfold _create_ticket_tool.
  destruct (str_in (lower priority) priorities) eqn:E; simpl negb; cbv iota.
  - apply str_in_spec in E.
    unfold bind_parameters, bind_parameter.
    destruct (fits_int64 customer_id) eqn:Hfits; cbn [bind].
    + left. split; [exact E |]. split; [reflexivity |].
      destruct (select_inserted_ticket customer_id issue "open"
                  (lower priority) now db) as [-> Hsel].
      rewrite Hsel. reflexivity.
    + right. left. auto.
  - right. right. split; [| reflexivity].
    intros Hin. apply str_in_spec in Hin. congruence.
Qed.

(** C2.  [create_ticket] checks the priority first: unless the lower-cased
    priority is [low], [medium] or [high] it returns the priority failure
    and the store is as before.  With such a priority and a [customer_id]
    within signed 64 bits it appends one row to [tickets] with that
    lower-cased priority, status [open] and the [customer_id] given,
    whether or not such a customer exists, and returns the row; with a
    [customer_id] outside that range it raises [OverflowError].  So a call
    succeeds only with one of the three priorities, and tickets with a
    priority among the three stay so. *)
Theorem create_ticket_validates_priority
  (customer_id : Z) (issue priority now : string) (db : store) :
  ((In (lower priority) priorities /\ fits_int64 customer_id = true /\
    exists row,
      _create_ticket_tool customer_id issue priority now db =
        Ret (Success (Ticket_row row) None,
             mkStore (customers db) (tickets db ++ [row])) /\
      t_priority row = lower priority /\
      t_status row = "open" /\
      t_customer_id row = customer_id /\
      t_issue row = issue /\
      t_created_at row = now /\
      (forall t, In t (tickets db) -> t_id t <> t_id row))
   \/
   (In (lower priority) priorities /\ fits_int64 customer_id = false /\
    _create_ticket_tool customer_id issue priority now db =
      Raise (OverflowError customer_id))
   \/
   (~ In (lower priority) priorities /\
    _create_ticket_tool customer_id issue priority now db =
      Ret (Failure "Priority must be 'low', 'medium', or 'high'", db))) /\
  (forall data count db',
      _create_ticket_tool customer_id issue priority now db =
        Ret (Success data count, db') ->
      In (lower priority) priorities) /\
  (forall env db',
      _create_ticket_tool customer_id issue priority now db = Ret (env, db') ->
      Forall (fun t => In (t_priority t) priorities) (tickets db) ->
      Forall (fun t => In (t_priority t) priorities) (tickets db')).
Proof.
  pose proof (create_ticket_cases customer_id issue priority now db)
    as Hcases.
  split; [| split].
  - destruct Hcases as [[Hin [Hfits Hcall]] | [[Hin [Hfits Hcall]] | Hout]];
      [left | right; left; auto | right; right; exact Hout].
    split; [exact Hin |]. split; [exact Hfits |].
    eexists. split; [exact Hcall |].
    simpl. repeat split.
    intros t Ht. pose proof (next_ticket_id_fresh db t Ht). lia.
  - intros data count db' Hcall.
    destruct Hcases as [[Hin _] | [[Hin _] | [_ Hfail]]];
      [exact Hin | exact Hin |].
    rewrite Hfail in Hcall. discriminate.
  - intros env db' Hcall Hall.
    destruct Hcases as [[Hin [_ Hok]] | [[_ [_ Hraise]] | [_ Hfail]]].
    + rewrite Hok in Hcall. injection Hcall as _ <-. simpl.
      apply Forall_app. split; [exact Hall |].
      constructor; [exact Hin | constructor].
    + rewrite Hraise in Hcall. discriminate.
    + rewrite Hfail in Hcall. injection Hcall as _ <-. exact Hall.
Qed.

(** The calls of the specification, for a customer within signed 64
    bits: ["HIGH"] is stored as ["high"], ["urgent"] is refused and nothing
    is inserted. *)
Lemma create_ticket_high_and_urgent (customer_id : Z) (now : string)
  (db : store) :
  fits_int64 customer_id = true ->
  (exists row,
      _create_ticket_tool customer_id "issue text" "HIGH" now db =
        Ret (Success (Ticket_row row) None,
             mkStore (customers db) (tickets db ++ [row])) /\
      t_priority row = "high") /\
  _create_ticket_tool customer_id "x" "urgent" now db =
    Ret (Failure "Priority must be 'low', 'medium', or 'high'", db).
Proof.
  intros Hfits. split.
  - destruct (create_ticket_cases customer_id "issue text"
                "HIGH" now db) as [[_ [_ H]] | [[_ [H _]] | [H _]]].
    + eexists. split; [exact H | reflexivity].
    + congruence.
    + exfalso. apply H. simpl. auto.
  - reflexivity.
Qed.

(** The theorem on the seeded store: a ticket for customer 1 with
    priority ["HIGH"], and one for the id 2^63. *)
Lemma create_ticket_validates_priority_witness :
  (exists row,
      _create_ticket_tool 1 "issue text" "HIGH" "2025-01-02T00:00:00+00:00"
                          (init_db "2025-01-01T00:00:00+00:00") =
        Ret (Success (Ticket_row row) None,
             mkStore (customers (init_db "2025-01-01T00:00:00+00:00"))
                     (tickets (init_db "2025-01-01T00:00:00+00:00") ++ [row]))
      /\ t_priority row = "high") /\
  _create_ticket_tool (2 ^ 63) "issue text" "HIGH" "2025-01-02T00:00:00+00:00"
                      (init_db "2025-01-01T00:00:00+00:00") =
    Raise (OverflowError (2 ^ 63)).
Proof.
  split.
  - destruct (proj1 (create_ticket_validates_priority
                       1 "issue text" "HIGH" "2025-01-02T00:00:00+00:00"
                       (init_db "2025-01-01T00:00:00+00:00")))
      as [[_ [_ [row [Hcall [Hpriority _]]]]]
         | [[_ [Hfits _]] | [Hout _]]].
    + exists row. split; [exact Hcall | exact Hpriority].
    + discriminate Hfits.
    + exfalso. apply Hout. right. right. left. reflexivity.
  - destruct (proj1 (create_ticket_validates_priority
                       (2 ^ 63) "issue text" "HIGH"
                       "2025-01-02T00:00:00+00:00"
                       (init_db "2025-01-01T00:00:00+00:00")))
      as [[_ [Hfits _]] | [[_ [_ Hcall]] | [Hout _]]].
    + discriminate Hfits.
    + exact Hcall.
    + exfalso. apply Hout. right. right. left. reflexivity.
Defined.

(** A valid priority and an id that Python holds and SQLite's INTEGER
    does not: the call neither succeeds nor returns the priority failure,
    it raises. *)
Lemma create_ticket_out_of_range_counterexample :
  In (lower "low") priorities /\
  fits_int64 (2 ^ 63) = false /\
  _create_ticket_tool (2 ^ 63) "x" "low" "2025-01-02T00:00:00+00:00"
                      (init_db "2025-01-01T00:00:00+00:00") =
    Raise (OverflowError (2 ^ 63)).
Proof.
  split; [left; reflexivity | split; reflexivity].
Qed.

(** ** update_customer *)

Lemma bind_parameter_position (p q : nat) (v : pyvalue) (sv : sqlvalue) :
  bind_parameter p v = Ret sv -> bind_parameter q v = Ret sv.
Proof.
  destruct v; simpl; try discriminate; auto.
Qed.

Lemma bind_parameters_each (p : nat) (vs : list pyvalue)
  (params : list sqlvalue) :
  bind_parameters p vs = Ret params ->
  Forall2 (fun v sv => bind_parameter 0 v = Ret sv) vs params.
Proof.
  revert p params. induction vs as [| v vs IH]; simpl; intros p params.
  - intros [= <-]. constructor.
  - destruct (bind_parameter p v) as [sv | e] eqn:Ev; simpl; [| discriminate].
    destruct (bind_parameters (S p) vs) as [svs | e] eqn:Evs; simpl;
      [| discriminate].
    intros [= <-]. constructor.
    + eapply bind_parameter_position. exact Ev.
    + eapply IH. exact Evs.
Qed.

Lemma bind_parameters_bindable (p : nat) (vs : list pyvalue) :
  Forall (fun v => bindable v = true) vs ->
  exists params, bind_parameters p vs = Ret params.
Proof.
  revert p. induction vs as [| v vs IH]; simpl; intros p Hall.
  - eexists. reflexivity.
  - inversion Hall as [| ? ? Hv Hvs]; subst.
    unfold bindable in Hv.
    destruct (bind_parameter 0 v) as [sv |] eqn:Ev; [| discriminate].
    rewrite (bind_parameter_position 0 p v sv Ev). simpl.
    destruct (IH (S p) Hvs) as [svs ->]. simpl. eexists. reflexivity.
Qed.

Lemma set_column_frame (k : string) (v : option string) (c : customer) :
  c_id (set_column k v c) = c_id c /\
  c_created_at (set_column k v c) = c_created_at c /\
  c_updated_at (set_column k v c) = c_updated_at c.
Proof.
  unfold set_column.
  repeat match goal with
         | |- context [String.eqb ?a ?b] => destruct (String.eqb a b)
         end; simpl; auto.
Qed.

Lemma apply_assignments_frame (assignments : list (string * sqlvalue))
  (c : customer) :
  c_id (apply_assignments assignments c) = c_id c /\
  c_created_at (apply_assignments assignments c) = c_created_at c /\
  c_updated_at (apply_assignments assignments c) = c_updated_at c.
Proof.
  unfold apply_assignments. revert c.
  induction assignments as [| [k sv] rest IH]; simpl; intros c; [auto |].
  destruct (IH (set_column k (text_affinity sv) c)) as [-> [-> ->]].
  apply set_column_frame.
Qed.

Lemma get_set_column_same (k : string) (v : option string) (c : customer) :
  In k allowed_fields -> get_column k (set_column k v c) = v.
Proof.
  simpl. intros [<- | [<- | [<- | [<- | []]]]]; reflexivity.
Qed.

Lemma get_set_column_other (k k' : string) (v : option string) (c : customer) :
  k <> k' -> get_column k (set_column k' v c) = get_column k c.
Proof.
  intros Hne. unfold get_column, set_column.
  destruct (String.eqb k' "name") eqn:E1;
    [apply String.eqb_eq in E1; subst k' |];
    [destruct (String.eqb k "name") eqn:F;
       [apply String.eqb_eq in F; congruence | reflexivity] |].
  destruct (String.eqb k' "email") eqn:E2;
    [apply String.eqb_eq in E2; subst k' |];
    [destruct (String.eqb k "name"); [reflexivity |];
     destruct (String.eqb k "email") eqn:F;
       [apply String.eqb_eq in F; congruence | reflexivity] |].
  destruct (String.eqb k' "phone") eqn:E3;
    [apply String.eqb_eq in E3; subst k' |];
    [destruct (String.eqb k "name"); [reflexivity |];
     destruct (String.eqb k "email"); [reflexivity |];
     destruct (String.eqb k "phone") eqn:F;
       [apply String.eqb_eq in F; congruence | reflexivity] |].
  destruct (String.eqb k' "status") eqn:E4;
    [apply String.eqb_eq in E4; subst k' |];
    [destruct (String.eqb k "name"); [reflexivity |];
     destruct (String.eqb k "email"); [reflexivity |];
     destruct (String.eqb k "phone"); [reflexivity |];
     destruct (String.eqb k "status") eqn:F;
       [apply String.eqb_eq in F; congruence | reflexivity] |].
  reflexivity.
Qed.

Lemma dict_get_absent (k : string) (d : pydict) :
  ~ In k (map fst d) -> dict_get k d = None.
Proof.
  induction d as [| [k' v] rest IH]; simpl; [reflexivity |].
  intros Hnot. destruct (String.eqb k k') eqn:E.
  - apply String.eqb_eq in E. subst. exfalso. auto.
  - apply IH. auto.
Qed.

(** The columns of a row after the assignments of a dict of updates. *)
Lemma apply_assignments_get (updates : pydict) (params : list sqlvalue)
  (k : string) (c : customer) :
  is_dict updates ->
  Forall2 (fun v sv => bind_parameter 0 v = Ret sv) (map snd updates) params ->
  In k allowed_fields ->
  get_column k (apply_assignments (combine (map fst updates) params) c) =
    match dict_get k updates with
    | Some v => stored_text v
    | None => get_column k c
    end.
Proof.
  unfold is_dict, apply_assignments. intros Hdict Hbind Hk.
  revert params c Hbind.
  induction updates as [| [k' v] rest IH]; simpl; intros params c Hbind.
  - inversion Hbind; subst. reflexivity.
  - inversion Hbind as [| ? sv ? svs Hv Hrest]; subst. simpl.
    inversion Hdict as [| ? ? Hfresh Hdict']; subst.
    rewrite (IH Hdict' svs _ Hrest).
    destruct (String.eqb k k') eqn:E.
    + apply String.eqb_eq in E. subst k'.
      rewrite (dict_get_absent k rest Hfresh).
      rewrite get_set_column_same by exact Hk.
      unfold stored_text. rewrite Hv. reflexivity.
    + apply String.eqb_neq in E.
      rewrite get_set_column_other by exact E. reflexivity.
Qed.

Lemma dict_get_allowed_updates (k : string) (data : pydict) :
  In k allowed_fields ->
  dict_get k (allowed_updates data) = dict_get k data.
Proof.
  intros Hk. unfold allowed_updates.
  induction data as [| [k' v] rest IH]; [reflexivity |].
  cbn [filter fst dict_get].
  destruct (String.eqb k k') eqn:E.
  - apply String.eqb_eq in E. subst k'.
    rewrite (proj2 (str_in_spec k allowed_fields) Hk).
    cbn [dict_get]. rewrite String.eqb_refl. reflexivity.
  - destruct (str_in k' allowed_fields); cbn [dict_get]; [rewrite E |];
      exact IH.
Qed.

Lemma is_dict_allowed_updates (data : pydict) :
  is_dict data -> is_dict (allowed_updates data).
Proof.
  unfold is_dict, allowed_updates.
  induction data as [| [k v] rest IH]; intros Hd; [constructor |].
  cbn [filter fst map] in *.
  inversion Hd as [| ? ? Hfresh Hd']; subst.
  destruct (str_in k allowed_fields); cbn [map fst]; [| auto].
  constructor; [| auto].
  intros Hin. apply Hfresh.
  apply in_map_iff in Hin as [kv [Hk Hkv]].
  apply filter_In in Hkv as [Hkv _].
  apply in_map_iff. exists kv. auto.
Qed.

Lemma allowed_updates_idempotent (data : pydict) :
  allowed_updates (allowed_updates data) = allowed_updates data.
Proof.
  unfold allowed_updates.
  induction data as [| kv rest IH]; [reflexivity |].
  cbn [filter].
  destruct (str_in (fst kv) allowed_fields) eqn:E; cbn [filter];
    [rewrite E |]; congruence.
Qed.

Lemma allowed_updates_keys (data : pydict) (k : string) (v : pyvalue) :
  In (k, v) (allowed_updates data) <-> In (k, v) data /\ In k allowed_fields.
Proof.
  unfold allowed_updates. rewrite filter_In. cbn [fst].
  rewrite str_in_spec. reflexivity.
Qed.

(** The SELECT after the UPDATE reads the first row with the id, updated. *)
Lemma select_after_update (assignments : list (string * sqlvalue))
  (now : string) (customer_id : Z) (db : store) :
  fetchone (select_customers_by_id customer_id
              (update_customers assignments now customer_id db)) =
    option_map (fun c => set_updated_at now (apply_assignments assignments c))
               (fetchone (select_customers_by_id customer_id db)).
Proof.
  unfold select_customers_by_id, update_customers, fetchone. simpl.
  induction (customers db) as [| c rows IH]; simpl; [reflexivity |].
  destruct (c_id c =? customer_id) eqn:E; simpl.
  - destruct (apply_assignments_frame assignments c) as [-> _].
    rewrite E. reflexivity.
  - rewrite E. exact IH.
Qed.

Lemma update_customers_same_but_for (assignments : list (string * sqlvalue))
  (now : string) (customer_id : Z) (db : store) :
  tickets (update_customers assignments now customer_id db) = tickets db /\
  same_but_for customer_id (customers db)
    (customers (update_customers assignments now customer_id db)).
Proof.
  split; [reflexivity |].
  unfold same_but_for, update_customers. simpl.
  induction (customers db) as [| c rows IH]; simpl; constructor; [| exact IH].
  destruct (c_id c =? customer_id) eqn:E; [| reflexivity].
  simpl. destruct (apply_assignments_frame assignments c) as [-> _].
  apply Z.eqb_eq. exact E.
Qed.

Lemma update_customers_not_found (assignments : list (string * sqlvalue))
  (now : string) (customer_id : Z) (db : store) :
  fetchone (select_customers_by_id customer_id db) = None ->
  update_customers assignments now customer_id db = db.
Proof.
  intros Hnone. unfold update_customers. destruct db as [cs ts]. simpl.
  f_equal.
  pose proof (fetchone_filter_none _ _ Hnone) as Hno. simpl in Hno.
  clear Hnone. induction cs as [| c rows IH]; simpl; [reflexivity |].
  rewrite (Hno c) by (simpl; auto). f_equal. apply IH.
  intros x Hx. apply Hno. simpl. auto.
Qed.

Lemma bind_parameters_tail (p : nat) (vs : list pyvalue) (now : string)
  (customer_id : Z) :
  bind_parameters p (vs ++ [VStr now; VInt customer_id]) =
    (params <- bind_parameters p vs ;;
     if fits_int64 customer_id
     then Ret (params ++ [SqlText now; SqlInteger customer_id])
     else Raise (OverflowError customer_id)).
Proof.
  revert p. induction vs as [| v vs IH]; intros p.
  - simpl. destruct (fits_int64 customer_id); reflexivity.
  - simpl. destruct (bind_parameter p v) as [sv | e]; simpl; [| reflexivity].
    rewrite IH.
    destruct (bind_parameters (S p) vs) as [svs | e]; simpl; [| reflexivity].
    destruct (fits_int64 customer_id); reflexivity.
Qed.

Lemma combine_app_left {A B : Type} (l1 : list A) (l2 l3 : list B) :
  length l1 = length l2 -> combine l1 (l2 ++ l3) = combine l1 l2.
Proof.
  revert l2. induction l1 as [| a l1 IH]; intros [| b l2]; simpl;
    try discriminate; try reflexivity.
  intros [= Hlen]. f_equal. apply IH, Hlen.
Qed.

Lemma bind_parameters_length (p : nat) (vs : list pyvalue)
  (params : list sqlvalue) :
  bind_parameters p vs = Ret params -> length vs = length params.
Proof.
  intros Hbind. apply bind_parameters_each in Hbind.
  induction Hbind; simpl; congruence.
Qed.

(** A value SQLite refuses makes the binding raise, wherever it stands. *)
Lemma bind_parameters_unbindable (p : nat) (vs : list pyvalue) (v : pyvalue) :
  In v vs -> bindable v = false -> exists e, bind_parameters p vs = Raise e.
Proof.
  intros Hin Hv. revert p.
  induction vs as [| v0 vs IH]; intros p; [destruct Hin |].
  simpl. destruct (bind_parameter p v0) as [sv | e] eqn:Ev; simpl;
    [| eexists; reflexivity].
  destruct Hin as [-> | Hin].
  - unfold bindable in Hv.
    rewrite (bind_parameter_position p 0 v sv Ev) in Hv. discriminate.
  - destruct (IH Hin (S p)) as [e ->]. simpl. eexists. reflexivity.
Qed.

(** The ways [_update_customer_tool] ends. *)
Lemma update_customer_cases (customer_id : Z) (data : pydict) (now : string)
  (db : store) :
  (allowed_updates data = [] /\
   _update_customer_tool customer_id data now db =
     Ret (Failure "No valid fields to update", db))
  \/
  (allowed_updates data <> [] /\
   exists e,
     (bind_parameters 0 (map snd (allowed_updates data)) = Raise e \/
      ((exists params,
           bind_parameters 0 (map snd (allowed_updates data)) = Ret params) /\
       fits_int64 customer_id = false /\ e = OverflowError customer_id)) /\
     _update_customer_tool customer_id data now db = Raise e)
  \/
  (allowed_updates data <> [] /\
   exists params,
     bind_parameters 0 (map snd (allowed_updates data)) = Ret params /\
     let assignments := combine (map fst (allowed_updates data)) params in
     ((exists row,
          fetchone (select_customers_by_id customer_id db) = Some row /\
          _update_customer_tool customer_id data now db =
            Ret (Success
                   (Customer_row
                      (set_updated_at now (apply_assignments assignments row)))
                   None,
                 update_customers assignments now customer_id db))
      \/
      (fetchone (select_customers_by_id customer_id db) = None /\
       _update_customer_tool customer_id data now db =
         Ret (Failure ("Customer " ++ str_int customer_id ++ " not found"),
              db)))).
Proof.
  remember (_update_customer_tool customer_id data now db) as result eqn:Er.
  unfold _update_customer_tool, update_parameters in Er.
  rewrite bind_parameters_tail in Er.
  destruct (allowed_updates data) as [| kv updates] eqn:Eu; [left; auto |].
  right.
  destruct (bind_parameters 0 (map snd (kv :: updates))) as [params | e] eqn:Eb.
  - cbn [bind] in Er.
    destruct (fits_int64 customer_id) eqn:Hfits; cbn [bind] in Er.
    + right. split; [discriminate |]. exists params. split; [reflexivity |].
      cbv zeta.
      rewrite combine_app_left in Er
        by (rewrite !length_map;
            rewrite <- (bind_parameters_length _ _ _ Eb), length_map;
            reflexivity).
      rewrite select_after_update in Er.
      destruct (fetchone (select_customers_by_id customer_id db))
        as [row |] eqn:Es; simpl in Er.
      * left. exists row. auto.
      * right. split; [reflexivity |].
        rewrite update_customers_not_found in Er by exact Es. exact Er.
    + left. split; [discriminate |]. exists (OverflowError customer_id).
      split; [| exact Er]. right. split; [eauto | auto].
  - left. split; [discriminate |]. exists e. auto.
Qed.

(** An update that gets as far as the UPDATE has bound the id. *)
Lemma update_customer_returns_in_range (customer_id : Z) (data : pydict)
  (now : string) (db db' : store) (env : envelope) :
  allowed_updates data <> [] ->
  _update_customer_tool customer_id data now db = Ret (env, db') ->
  fits_int64 customer_id = true.
Proof.
  intros Hsome Hcall.
  destruct (fits_int64 customer_id) eqn:Hfits; [reflexivity |].
  destruct (update_customer_cases customer_id data now db)
    as [[Hempty _] | [[_ [e [_ Hraise]]] | [_ [params [Hb Hrows]]]]].
  - contradiction.
  - congruence.
  - exfalso.
    assert (Hraise : _update_customer_tool customer_id data now db =
                       Raise (OverflowError customer_id)).
    { unfold _update_customer_tool, update_parameters.
      rewrite bind_parameters_tail, Hb, Hfits.
      destruct (allowed_updates data); [contradiction | reflexivity]. }
    congruence.
Qed.

Lemma allowed_updates_empty (data : pydict) :
  allowed_updates data = [] <->
  (forall k, In k (map fst data) -> ~ In k allowed_fields).
Proof.
  split.
  - intros Hempty k Hk Hallowed.
    apply in_map_iff in Hk as [[k' v] [Hfst Hin]]. simpl in Hfst. subst k'.
    assert (Hkv : In (k, v) (allowed_updates data))
      by (apply allowed_updates_keys; auto).
    rewrite Hempty in Hkv. exact Hkv.
  - intros Hnone.
    destruct (allowed_updates data) as [| [k v] rest] eqn:E; [reflexivity |].
    assert (Hkv : In (k, v) (allowed_updates data)) by (rewrite E; simpl; auto).
    apply allowed_updates_keys in Hkv as [Hin Hallowed].
    exfalso. apply (Hnone k); [| exact Hallowed].
    apply in_map_iff. exists (k, v). auto.
Qed.

Lemma allowed_updates_nonempty (data : pydict) :
  allowed_updates data <> [] ->
  exists k, In k (map fst data) /\ In k allowed_fields.
Proof.
  destruct (allowed_updates data) as [| [k v] rest] eqn:E; [congruence |].
  intros _.
  assert (Hkv : In (k, v) (allowed_updates data)) by (rewrite E; simpl; auto).
  apply allowed_updates_keys in Hkv as [Hin Hallowed].
  exists k. split; [| exact Hallowed].
  apply in_map_iff. exists (k, v). auto.
Qed.

Lemma get_customer_fetch (customer_id : Z) (db : store) (row : customer) :
  _get_customer_tool customer_id db = Ret (Success (Customer_row row) None) ->
  fetchone (select_customers_by_id customer_id db) = Some row /\
  fits_int64 customer_id = true.
Proof.
  intros Hget. destruct (fits_int64 customer_id) eqn:Hfits.
  - rewrite (get_customer_in_range _ _ Hfits) in Hget. split; [| reflexivity].
    destruct (fetchone (select_customers_by_id customer_id db)); congruence.
  - rewrite (get_customer_out_of_range _ _ Hfits) in Hget. discriminate.
Qed.

Lemma get_customer_of_fetch (customer_id : Z) (db : store) (row : customer) :
  fits_int64 customer_id = true ->
  fetchone (select_customers_by_id customer_id db) = Some row ->
  _get_customer_tool customer_id db = Ret (Success (Customer_row row) None).
Proof.
  intros Hfits Hfetch.
  rewrite (get_customer_in_range _ _ Hfits), Hfetch. reflexivity.
Qed.

(** The row an accepted update leaves in place of [row]. *)
Lemma updated_row_columns (data : pydict) (params : list sqlvalue)
  (now : string) (row : customer) :
  is_dict data ->
  bind_parameters 0 (map snd (allowed_updates data)) = Ret params ->
  let row' :=
    set_updated_at now
      (apply_assignments (combine (map fst (allowed_updates data)) params) row)
  in
  (forall k, In k allowed_fields ->
             get_column k row' =
               match dict_get k data with
               | Some v => stored_text v
               | None => get_column k row
               end) /\
  c_id row' = c_id row /\
  c_created_at row' = c_created_at row /\
  c_updated_at row' = now.
Proof.
  intros Hdict Hbind row'. subst row'.
  destruct (apply_assignments_frame
              (combine (map fst (allowed_updates data)) params) row)
    as [Hid [Hcreated _]].
  repeat split; try assumption.
  intros k Hk.
  rewrite <- (dict_get_allowed_updates k data Hk).
  rewrite <- (apply_assignments_get (allowed_updates data) params k row
                (is_dict_allowed_updates data Hdict)
                (bind_parameters_each 0 _ _ Hbind) Hk).
  reflexivity.
Qed.

(** C1, as the code has it.  The fields of the payload outside the
    allow-list have no effect.  With no allow-listed field the answer is
    "No valid fields to update" and the store is as before, whatever the
    id.  With one, the tool binds the allow-listed values and the id.  When
    the values are ones SQLite binds ([None], [bool], 64-bit [int], [str])
    and the id is within signed 64 bits: if the customer exists, the
    answer is the updated row, whose allow-listed columns hold the payload
    values where given and their old values elsewhere, with [updated_at]
    the clock reading, and nothing else in the store differs; if it does
    not exist, the answer is the not-found failure.  When one of the
    values is one SQLite does not bind, the tool raises; when all are and
    the id is outside signed 64 bits, it raises [OverflowError]. *)
Theorem update_customer_allow_list
  (customer_id : Z) (data : pydict) (now : string) (db : store)
  (Hdict : is_dict data) :
  _update_customer_tool customer_id data now db =
    _update_customer_tool customer_id (allowed_updates data) now db /\
  ((forall k, In k (map fst data) -> ~ In k allowed_fields) ->
   _update_customer_tool customer_id data now db =
     Ret (Failure "No valid fields to update", db)) /\
  ((exists k, In k (map fst data) /\ In k allowed_fields) ->
   (forall k v, In (k, v) data -> In k allowed_fields -> bindable v = true) ->
   fits_int64 customer_id = true ->
   (exists row row' db',
       _get_customer_tool customer_id db =
         Ret (Success (Customer_row row) None) /\
       _update_customer_tool customer_id data now db =
         Ret (Success (Customer_row row') None, db') /\
       (forall k, In k allowed_fields ->
                  get_column k row' =
                    match dict_get k data with
                    | Some v => stored_text v
                    | None => get_column k row
                    end) /\
       c_id row' = customer_id /\
       c_created_at row' = c_created_at row /\
       c_updated_at row' = now /\
       tickets db' = tickets db /\
       same_but_for customer_id (customers db) (customers db') /\
       _get_customer_tool customer_id db' =
         Ret (Success (Customer_row row') None))
   \/
   ((forall row, In row (customers db) -> c_id row <> customer_id) /\
    _update_customer_tool customer_id data now db =
      Ret (Failure ("Customer " ++ str_int customer_id ++ " not found"), db))) /\
  ((exists k v, In (k, v) data /\ In k allowed_fields /\ bindable v = false) ->
   exists e, _update_customer_tool customer_id data now db = Raise e) /\
  ((exists k, In k (map fst data) /\ In k allowed_fields) ->
   (forall k v, In (k, v) data -> In k allowed_fields -> bindable v = true) ->
   fits_int64 customer_id = false ->
   _update_customer_tool customer_id data now db =
     Raise (OverflowError customer_id)).
Proof.
  assert (Hbound :
            (forall k v, In (k, v) data -> In k allowed_fields ->
                         bindable v = true) ->
            exists params,
              bind_parameters 0 (map snd (allowed_updates data)) = Ret params).
  { intros Hbind. apply bind_parameters_bindable.
    apply Forall_forall. intros v Hv.
    apply in_map_iff in Hv as [[k v'] [Hsnd Hin]]. simpl in Hsnd. subst v'.
    apply allowed_updates_keys in Hin as [Hin Hallowed].
    exact (Hbind k v Hin Hallowed). }
  assert (Hnonempty :
            (exists k, In k (map fst data) /\ In k allowed_fields) ->
            allowed_updates data <> []).
  { intros [k [Hk Hallowed]] Hempty.
    exact (proj1 (allowed_updates_empty data) Hempty k Hk Hallowed). }
  pose proof (update_customer_cases customer_id data now db) as Hcases.
  split; [| split; [| split; [| split]]].
  - unfold _update_customer_tool.
    rewrite allowed_updates_idempotent. reflexivity.
  - intros Hnone. apply allowed_updates_empty in Hnone.
    destruct Hcases as [[_ Hcall] | [[Hsome _] | [Hsome _]]];
      [exact Hcall | contradiction | contradiction].
  - intros Hsome Hbind Hfits.
    destruct (Hbound Hbind) as [params0 Hok].
    destruct Hcases
      as [[Hempty _]
         | [[_ [e [[Hraise | [_ [Hover _]]] _]]] | [_ [params [Hb Hrows]]]]].
    + exfalso. exact (Hnonempty Hsome Hempty).
    + congruence.
    + congruence.
    + cbv zeta in Hrows.
      destruct Hrows as [[row [Hfetch Hcall]] | [Hnone Hcall]].
      * left.
        destruct (updated_row_columns data params now row Hdict Hb)
          as [Hcols [Hid [Hcreated Hupdated]]].
        destruct (update_customers_same_but_for
                    (combine (map fst (allowed_updates data)) params)
                    now customer_id db) as [Htickets Hsame].
        pose proof (fetchone_filter_some _ _ _ Hfetch) as [_ Hrow].
        apply Z.eqb_eq in Hrow.
        do 3 eexists.
        split; [apply get_customer_of_fetch; [exact Hfits | exact Hfetch] |].
        split; [exact Hcall |].
        split; [exact Hcols |].
        split; [congruence |].
        split; [exact Hcreated |].
        split; [exact Hupdated |].
        split; [exact Htickets |].
        split; [exact Hsame |].
        apply get_customer_of_fetch; [exact Hfits |].
        rewrite select_after_update, Hfetch. reflexivity.
      * right. split; [| exact Hcall].
        intros row Hin Heq.
        pose proof (fetchone_filter_none _ _ Hnone row Hin) as Hne.
        apply Z.eqb_neq in Hne. contradiction.
  - intros [k [v [Hin [Hallowed Hv]]]].
    assert (Hkv : In (k, v) (allowed_updates data))
      by (apply allowed_updates_keys; auto).
    destruct (bind_parameters_unbindable 0 (map snd (allowed_updates data)) v)
      as [e0 Hraise0]; [| exact Hv |].
    { apply in_map_iff. exists (k, v). auto. }
    destruct Hcases
      as [[Hempty _] | [[_ [e [_ Hraise]]] | [_ [params [Hb _]]]]].
    + rewrite Hempty in Hkv. destruct Hkv.
    + exists e. exact Hraise.
    + congruence.
  - intros Hsome Hbind Hfits.
    destruct (Hbound Hbind) as [params0 Hok].
    destruct Hcases
      as [[Hempty _]
         | [[_ [e [[Hraise | [_ [_ ->]]] Hcall]]] | [Hne [params [Hb Hrows]]]]].
    + exfalso. exact (Hnonempty Hsome Hempty).
    + congruence.
    + exact Hcall.
    + exfalso. cbv zeta in Hrows.
      destruct Hrows as [[row [_ Hcall]] | [_ Hcall]];
        pose proof (update_customer_returns_in_range _ _ _ _ _ _ Hne Hcall);
        congruence.
Qed.

(** The theorem on the seeded store: a payload with one allow-listed field
    and one other, for customer 1 and for the id 2^63, and a payload whose
    allow-listed value is a list. *)
Lemma update_customer_allow_list_witness :
  is_dict [("status", VStr "disabled"); ("unknown_field", VStr "x")] /\
  _update_customer_tool 1
      [("status", VStr "disabled"); ("unknown_field", VStr "x")]
      "2025-06-01T12:00:00+00:00" (init_db "2025-01-01T00:00:00+00:00") =
    _update_customer_tool 1
      (allowed_updates
         [("status", VStr "disabled"); ("unknown_field", VStr "x")])
      "2025-06-01T12:00:00+00:00" (init_db "2025-01-01T00:00:00+00:00") /\
  _update_customer_tool (2 ^ 63)
      [("status", VStr "disabled"); ("unknown_field", VStr "x")]
      "2025-06-01T12:00:00+00:00" (init_db "2025-01-01T00:00:00+00:00") =
    Raise (OverflowError (2 ^ 63)) /\
  is_dict [("name", VList [VStr "Alice"])] /\
  (exists e,
      _update_customer_tool 1 [("name", VList [VStr "Alice"])]
          "2025-06-01T12:00:00+00:00" (init_db "2025-01-01T00:00:00+00:00") =
        Raise e).
Proof.
  assert (Hdict : is_dict
                    [("status", VStr "disabled"); ("unknown_field", VStr "x")]).
  { unfold is_dict. simpl. repeat constructor; simpl; intuition discriminate. }
  assert (Hdict' : is_dict [("name", VList [VStr "Alice"])]).
  { unfold is_dict. simpl. repeat constructor; simpl; intuition. }
  split; [exact Hdict |]. split; [| split; [| split; [exact Hdict' |]]].
  - apply (update_customer_allow_list 1
             [("status", VStr "disabled"); ("unknown_field", VStr "x")]
             "2025-06-01T12:00:00+00:00" (init_db "2025-01-01T00:00:00+00:00")
             Hdict).
  - destruct (update_customer_allow_list (2 ^ 63)
                [("status", VStr "disabled"); ("unknown_field", VStr "x")]
                "2025-06-01T12:00:00+00:00"
                (init_db "2025-01-01T00:00:00+00:00") Hdict)
      as [_ [_ [_ [_ Hover]]]].
    apply Hover.
    + exists "status". split; [left; reflexivity | right; right; right; left;
                                                   reflexivity].
    + intros k v [[= <- <-] | [[= <- <-] | []]] _; reflexivity.
    + reflexivity.
  - destruct (update_customer_allow_list 1 [("name", VList [VStr "Alice"])]
                "2025-06-01T12:00:00+00:00"
                (init_db "2025-01-01T00:00:00+00:00") Hdict')
      as [_ [_ [_ [Hraise _]]]].
    apply Hraise.
    exists "name", (VList [VStr "Alice"]).
    split; [left; reflexivity |]. split; [left; reflexivity | reflexivity].
Defined.

(** C1 as written fails where an allow-listed field carries a value SQLite
    does not bind: customer 1 exists and [name] is allow-listed, yet the
    tool raises, and the registry answers with a failure envelope.  It
    fails too for an id outside signed 64 bits with an allow-listed field:
    the tool raises where the claim has it answer "not found". *)
Lemma update_customer_any_payload_counterexample :
  (exists row,
      _get_customer_tool 1 (init_db "2025-01-01T00:00:00+00:00") =
        Ret (Success (Customer_row row) None)) /\
  In "name" allowed_fields /\
  _update_customer_tool 1 [("name", VList [VStr "Alice"])]
      "2025-06-01T12:00:00+00:00" (init_db "2025-01-01T00:00:00+00:00") =
    Raise (Sqlite_unsupported_type 0 (VList [VStr "Alice"])) /\
  (forall str_exn untyped,
      call_tool str_exn untyped "update_customer"
          [("customer_id", VInt 1);
           ("data", VDict [("name", VList [VStr "Alice"])])]
          "2025-06-01T12:00:00+00:00" (init_db "2025-01-01T00:00:00+00:00") =
        Ret (Failure (str_exn (Sqlite_unsupported_type 0 (VList [VStr "Alice"]))),
             init_db "2025-01-01T00:00:00+00:00")) /\
  _update_customer_tool (2 ^ 63) [("name", VStr "Alice")]
      "2025-06-01T12:00:00+00:00" (init_db "2025-01-01T00:00:00+00:00") =
    Raise (OverflowError (2 ^ 63)).
Proof.
  split; [eexists; reflexivity |].
  split; [simpl; auto |].
  split; [reflexivity |]. split; reflexivity.
Qed.

(** The specification's call with an unknown field only. *)
Lemma update_customer_unknown_field (customer_id : Z) (now : string)
  (db : store) :
  _update_customer_tool customer_id [("unknown_field", VStr "x")] now db =
    Ret (Failure "No valid fields to update", db).
Proof. reflexivity. Qed.

Lemma dict_get_In (k : string) (v : pyvalue) (d : pydict) :
  dict_get k d = Some v -> In (k, v) d.
Proof.
  induction d as [| [k' v'] rest IH]; simpl; [discriminate |].
  destruct (String.eqb k k') eqn:E.
  - apply String.eqb_eq in E. intros [= ->]. subst. auto.
  - auto.
Qed.

Lemma Forall2_In_left {A B : Type} (R : A -> B -> Prop) (l1 : list A)
  (l2 : list B) (x : A) :
  Forall2 R l1 l2 -> In x l1 -> exists y, R x y.
Proof.
  induction 1 as [| a b l1 l2 Hab _ IH]; simpl; [tauto |].
  intros [<- | Hin]; eauto.
Qed.

(** C8, as the code has it.  After a successful update, [get_customer]
    returns the row the update returned.  An allow-listed field of the
    payload reads back as the text SQLite stored for the value written: a
    string and [None] read back as they were written, an integer as its
    decimal text, a boolean as ["1"] or ["0"].  Allow-listed fields the
    payload does not name keep their value, and so do [id] and
    [created_at] whatever the payload; [updated_at] is the clock
    reading. *)
Theorem update_then_get_round_trip
  (customer_id : Z) (data : pydict) (now : string) (db db' : store)
  (row row' : customer)
  (Hdict : is_dict data)
  (Hbefore : _get_customer_tool customer_id db =
               Ret (Success (Customer_row row) None))
  (Hupdate : _update_customer_tool customer_id data now db =
               Ret (Success (Customer_row row') None, db')) :
  _get_customer_tool customer_id db' = Ret (Success (Customer_row row') None) /\
  (forall k v,
      In k allowed_fields -> dict_get k data = Some v ->
      get_column k row' = stored_text v /\
      (forall s, v = VStr s -> json_of_text (get_column k row') = VStr s) /\
      (v = VNone -> json_of_text (get_column k row') = VNone) /\
      (forall z, v = VInt z ->
                 json_of_text (get_column k row') = VStr (str_int z)) /\
      (forall b, v = VBool b ->
                 json_of_text (get_column k row') =
                   VStr (if b then "1" else "0"))) /\
  (forall k, In k allowed_fields -> dict_get k data = None ->
             get_column k row' = get_column k row) /\
  c_id row' = c_id row /\
  c_created_at row' = c_created_at row /\
  c_updated_at row' = now.
Proof.
  apply get_customer_fetch in Hbefore as [Hbefore Hfits].
  destruct (update_customer_cases customer_id data now db)
    as [[_ Hcall] | [[_ [e [_ Hcall]]] | [_ [params [Hb Hrows]]]]];
    try congruence.
  cbv zeta in Hrows.
  destruct Hrows as [[row0 [Hfetch Hcall]] | [_ Hcall]]; [| congruence].
  assert (row0 = row) by congruence. subst row0.
  rewrite Hcall in Hupdate. injection Hupdate as Hrow' Hdb'.
  destruct (updated_row_columns data params now row Hdict Hb)
    as [Hcols [Hid [Hcreated Hupdated]]].
  rewrite Hrow' in Hcols, Hid, Hcreated, Hupdated.
  split.
  { apply get_customer_of_fetch; [exact Hfits |].
    rewrite <- Hdb', select_after_update, Hfetch.
    simpl. congruence. }
  split; [| split; [| auto]].
  - intros k v Hk Hget.
    assert (Hstored : get_column k row' = stored_text v)
      by (rewrite (Hcols k Hk), Hget; reflexivity).
    assert (Hbound : exists sv, bind_parameter 0 v = Ret sv).
    { apply (Forall2_In_left _ _ _ v (bind_parameters_each 0 _ _ Hb)).
      apply in_map_iff. exists (k, v). split; [reflexivity |].
      apply allowed_updates_keys. split; [apply dict_get_In; exact Hget | exact Hk]. }
    destruct Hbound as [sv Hsv].
    rewrite Hstored. unfold stored_text. rewrite Hsv.
    split; [reflexivity |].
    repeat split.
    + intros s ->. simpl in Hsv. injection Hsv as <-. reflexivity.
    + intros ->. simpl in Hsv. injection Hsv as <-. reflexivity.
    + intros z ->. simpl in Hsv.
      destruct (fits_int64 z); [| discriminate].
      injection Hsv as <-. reflexivity.
    + intros b ->. simpl in Hsv. injection Hsv as <-.
      destruct b; reflexivity.
  - intros k Hk Hget. rewrite (Hcols k Hk), Hget. reflexivity.
Qed.

Lemma update_then_get_round_trip_witness :
  exists row' db',
    _update_customer_tool 1 [("email", VStr "alice@new.example")]
        "2025-06-01T12:00:00+00:00" (init_db "2025-01-01T00:00:00+00:00") =
      Ret (Success (Customer_row row') None, db') /\
    _get_customer_tool 1 db' = Ret (Success (Customer_row row') None) /\
    json_of_text (get_column "email" row') = VStr "alice@new.example".
Proof.
  eexists. eexists.
  split; [reflexivity |].
  assert (Hdict : is_dict [("email", VStr "alice@new.example")]).
  { unfold is_dict. simpl. repeat constructor. simpl. tauto. }
  pose proof (update_then_get_round_trip 1
                [("email", VStr "alice@new.example")]
                "2025-06-01T12:00:00+00:00"
                (init_db "2025-01-01T00:00:00+00:00") _ _ _
                Hdict eq_refl eq_refl) as [Hget [Hfields _]].
  split; [exact Hget |].
  destruct (Hfields "email" (VStr "alice@new.example")) as [_ [Hstr _]].
  - simpl. auto.
  - reflexivity.
  - exact (Hstr _ eq_refl).
Defined.

(** C8 as written fails on the seeded store: the integer 5550999 written
    to [phone] reads back as the string ["5550999"]; and [updated_at],
    which is not allow-listed, differs after an update that does not name
    it. *)
Lemma update_then_get_any_value_counterexample :
  exists row row' db',
    _get_customer_tool 1 (init_db "2025-01-01T00:00:00+00:00") =
      Ret (Success (Customer_row row) None) /\
    _update_customer_tool 1 [("phone", VInt 5550999)]
        "2025-06-01T12:00:00+00:00" (init_db "2025-01-01T00:00:00+00:00") =
      Ret (Success (Customer_row row') None, db') /\
    _get_customer_tool 1 db' = Ret (Success (Customer_row row') None) /\
    json_of_text (get_column "phone" row') = VStr "5550999" /\
    json_of_text (get_column "phone" row') <> VInt 5550999 /\
    c_updated_at row' <> c_updated_at row.
Proof.
  do 3 eexists.
  split; [reflexivity |].
  split; [reflexivity |].
  split; [reflexivity |].
  split; [reflexivity |].
  split; discriminate.
Qed.

(** C9, as the code has it.  Disabling an existing customer and reading it
    back shows status [disabled] and [updated_at] equal to the clock
    reading of the update, which is strictly greater than the value before
    when that reading is; name, email, phone, id and [created_at] are as
    before. *)
Theorem disable_customer_then_get
  (customer_id : Z) (now : string) (db : store) (row : customer)
  (Hbefore : _get_customer_tool customer_id db =
               Ret (Success (Customer_row row) None)) :
  exists row' db',
    _update_customer_tool customer_id [("status", VStr "disabled")] now db =
      Ret (Success (Customer_row row') None, db') /\
    _get_customer_tool customer_id db' = Ret (Success (Customer_row row') None) /\
    c_status row' = Some "disabled" /\
    c_updated_at row' = now /\
    (String.ltb (c_updated_at row) now = true ->
     String.ltb (c_updated_at row) (c_updated_at row') = true) /\
    c_name row' = c_name row /\
    c_email row' = c_email row /\
    c_phone row' = c_phone row /\
    c_id row' = c_id row /\
    c_created_at row' = c_created_at row.
Proof.
  apply get_customer_fetch in Hbefore as [Hbefore Hfits].
  destruct (update_customer_cases customer_id [("status", VStr "disabled")]
              now db)
    as [[Hempty _]
       | [[_ [e [[Hraise | [_ [Hover _]]] _]]] | [_ [params [Hb Hrows]]]]];
    try discriminate; [congruence |].
  injection Hb as <-. cbv zeta in Hrows.
  destruct Hrows as [[row0 [Hfetch Hcall]] | [Hnone _]]; [| congruence].
  assert (row0 = row) by congruence. subst row0.
  do 2 eexists. split; [exact Hcall |].
  split.
  { apply get_customer_of_fetch; [exact Hfits |].
    rewrite select_after_update, Hfetch. reflexivity. }
  simpl. repeat split. auto.
Qed.

Lemma disable_customer_then_get_witness :
  exists row' db',
    _update_customer_tool 1 [("status", VStr "disabled")]
        "2025-06-01T12:00:00+00:00" (init_db "2025-01-01T00:00:00+00:00") =
      Ret (Success (Customer_row row') None, db') /\
    _get_customer_tool 1 db' = Ret (Success (Customer_row row') None) /\
    c_status row' = Some "disabled" /\
    c_updated_at row' = "2025-06-01T12:00:00+00:00".
Proof.
  destruct (disable_customer_then_get 1 "2025-06-01T12:00:00+00:00"
              (init_db "2025-01-01T00:00:00+00:00") _ eq_refl)
    as [row' [db' [Hupdate [Hget [Hstatus [Hupdated _]]]]]].
  exists row', db'. auto.
Defined.

(** C9 as written fails when the clock reading of the update is not later
    than the stored [updated_at]: the same reading as at seeding, or an
    earlier one after the clock was set back, leaves [updated_at] not
    strictly greater than before. *)
Lemma disable_customer_clock_counterexample :
  (exists row row' db',
      _get_customer_tool 1 (init_db "2025-01-01T00:00:00+00:00") =
        Ret (Success (Customer_row row) None) /\
      _update_customer_tool 1 [("status", VStr "disabled")]
          "2025-01-01T00:00:00+00:00" (init_db "2025-01-01T00:00:00+00:00") =
        Ret (Success (Customer_row row') None, db') /\
      _get_customer_tool 1 db' = Ret (Success (Customer_row row') None) /\
      String.ltb (c_updated_at row) (c_updated_at row') = false) /\
  (exists row row' db',
      _get_customer_tool 1 (init_db "2025-01-01T00:00:00+00:00") =
        Ret (Success (Customer_row row) None) /\
      _update_customer_tool 1 [("status", VStr "disabled")]
          "2024-12-31T23:59:59.999999+00:00"
          (init_db "2025-01-01T00:00:00+00:00") =
        Ret (Success (Customer_row row') None, db') /\
      _get_customer_tool 1 db' = Ret (Success (Customer_row row') None) /\
      String.ltb (c_updated_at row) (c_updated_at row') = false).
Proof.
  split; do 3 eexists; repeat split; reflexivity.
Qed.

(** ** Primary keys *)

Lemma init_db_well_formed (now : string) : well_formed (init_db now).
Proof.
  assert (Hc : map c_id (customers (init_db now)) = [1; 2; 3; 4; 5; 12345])
    by reflexivity.
  assert (Ht : map t_id (tickets (init_db now)) = [1; 2; 3; 4; 5; 6; 7])
    by reflexivity.
  unfold well_formed.
  rewrite <- (Forall_map t_id (fun id => 0 < id)), Hc, Ht.
  repeat split;
    repeat (apply SSorted_cons || apply Forall_cons || apply SSorted_nil
            || apply Forall_nil || reflexivity).
Qed.

Lemma strongly_sorted_snoc (ids : list Z) (id : Z) :
  StronglySorted Z.lt ids -> Forall (fun i => i < id) ids ->
  StronglySorted Z.lt (ids ++ [id]).
Proof.
  induction 1 as [| i ids Hs IH Hall]; simpl; intros Hlt.
  - repeat constructor.
  - inversion Hlt; subst. constructor; [auto |].
    apply Forall_app. split; [exact Hall | repeat constructor; assumption].
Qed.

Lemma update_customers_ids (assignments : list (string * sqlvalue))
  (now : string) (customer_id : Z) (db : store) :
  map c_id (customers (update_customers assignments now customer_id db)) =
    map c_id (customers db).
Proof.
  unfold update_customers. simpl.
  induction (customers db) as [| c rows IH]; simpl; [reflexivity |].
  rewrite IH. f_equal.
  destruct (c_id c =? customer_id); [| reflexivity].
  simpl. apply apply_assignments_frame.
Qed.

(** Whatever [update_customer] answers, ids stay distinct and ordered. *)
Lemma update_customer_well_formed (customer_id : Z) (data : pydict)
  (now : string) (db db' : store) (env : envelope) :
  well_formed db ->
  _update_customer_tool customer_id data now db = Ret (env, db') ->
  well_formed db'.
Proof.
  intros Hwf Hcall.
  destruct (update_customer_cases customer_id data now db)
    as [[_ H] | [[_ [e [_ H]]] | [_ [params [_ Hrows]]]]];
    [congruence | congruence |].
  cbv zeta in Hrows.
  destruct Hrows as [[row [_ H]] | [_ H]]; [| congruence].
  rewrite H in Hcall. injection Hcall as _ <-.
  destruct Hwf as [Hc [Ht [Hpos Hfit]]].
  split; [rewrite update_customers_ids; exact Hc |].
  split; [exact Ht |]. split; [exact Hpos |].
  rewrite <- (Forall_map c_id (fun id => fits_int64 id = true)) in *.
  rewrite update_customers_ids. exact Hfit.
Qed.

(** So does [create_ticket]: the new id is above all ids in use. *)
Lemma create_ticket_well_formed (customer_id : Z) (issue priority now : string)
  (db db' : store) (env : envelope) :
  well_formed db ->
  _create_ticket_tool customer_id issue priority now db = Ret (env, db') ->
  well_formed db'.
Proof.
  intros Hwf Hcall.
  destruct (create_ticket_cases customer_id issue priority now db)
    as [[_ [_ H]] | [[_ [_ H]] | [_ H]]];
    rewrite H in Hcall; [| discriminate | congruence].
  injection Hcall as _ <-.
  destruct Hwf as [Hc [Ht [Hpos Hfit]]]. unfold well_formed.
  cbn [customers tickets].
  split; [exact Hc |]. split; [| split; [| exact Hfit]].
  - rewrite map_app. cbn [map t_id]. apply strongly_sorted_snoc; [exact Ht |].
    apply Forall_forall. intros i Hi.
    apply in_map_iff in Hi as [t [<- Hin]].
    apply next_ticket_id_fresh. exact Hin.
  - apply Forall_app. split; [exact Hpos |].
    constructor; [| constructor]. simpl. apply next_ticket_id_positive.
Qed.

(** ** call_tool *)

Section RegistryProperties.

Variable str_exn : exn -> string.
Variable untyped :
  string -> pydict -> string -> store -> outcome (envelope * store).




(** Exceptions of three origins, each turned into a failure envelope: a
    missing argument, a keyword that is no parameter, an update value
    SQLite does not bind. *)
Lemma call_tool_catches (now : string) (db : store) :
  call_tool str_exn untyped "get_customer" [] now db =
    Ret (Failure (str_exn (TypeError_missing_arguments "_get_customer_tool"
                                                       ["customer_id"])), db) /\
  call_tool str_exn untyped "get_customer_history"
            [("customer_id", VInt 1); ("verbose", VBool true)] now db =
    Ret (Failure (str_exn (TypeError_unexpected_keyword
                             "_get_customer_history_tool" "verbose")), db) /\
  call_tool str_exn untyped "update_customer"
            [("customer_id", VInt 1); ("data", VDict [("name", VDict [])])]
            now db =
    Ret (Failure (str_exn (Sqlite_unsupported_type 0 (VDict []))), db) /\
  call_tool str_exn untyped "delete_customer" [("customer_id", VInt 1)] now db =
    Ret (Failure "Unknown tool: delete_customer", db).
Proof. repeat split; reflexivity. Qed.

End RegistryProperties.

(** ** Tool client *)

Section ClientProperties.

Import Client.

Variable str_exn : exn -> string.
Variable post : request -> outcome response.
Variable json_dumps_indent2 : pyvalue -> string.
Variable str_composite : pyvalue -> string.
Variable json_loads : string -> json_result.

(** A client function at the parameters of this section. *)
Local Notation "f @client" :=
  (f str_exn post json_dumps_indent2 str_composite)
  (at level 1, only parsing).

(** What the tool client guarantees.  Every call of [_call_mcp_tool], and
    so every tool but [tool_update_customer], returns a string, and so does
    [tool_update_customer] unless [json.loads] ends with an exception that
    is not [json.JSONDecodeError], which it hands on.  A failure of the
    transport (the request raises, the status is an error status, the body
    is not JSON) gives "MCP call failed: <reason>"; a failure envelope
    gives "Error: <message>"; a success envelope gives its data,
    pretty-printed JSON for a dict or a list and [str] of it otherwise.
    [tool_update_customer] with data that is not JSON returns its error
    text and sends no request, where a call of [_call_mcp_tool] sends
    one. *)
Theorem tool_client_returns_text :
  (forall tool_name params sent,
      exists text,
        _call_mcp_tool@client tool_name params sent =
          (Ret text, sent ++ [mkRequest tool_name params])) /\
  (forall customer_id data sent,
      (forall e, json_loads data <> Raised e) ->
      exists text sent',
        tool_update_customer@client json_loads customer_id data sent =
          (Ret text, sent')) /\
  (forall customer_id data sent e,
      json_loads data = Raised e ->
      tool_update_customer@client json_loads customer_id data sent =
        (Raise e, sent)) /\
  (forall customer_id status limit issue priority sent,
      (exists text sent',
          tool_get_customer@client customer_id sent = (Ret text, sent')) /\
      (exists text sent',
          tool_list_customers@client status limit sent = (Ret text, sent')) /\
      (exists text sent',
          tool_create_ticket@client customer_id issue priority sent =
            (Ret text, sent')) /\
      (exists text sent',
          tool_get_customer_history@client customer_id sent =
            (Ret text, sent'))) /\
  (forall tool_name params sent e,
      post (mkRequest tool_name params) = Raise e ->
      fst (_call_mcp_tool@client tool_name params sent) =
        Ret ("MCP call failed: " ++ str_exn e)%string) /\
  (forall tool_name params sent r,
      post (mkRequest tool_name params) = Ret r ->
      400 <= status_code r < 600 ->
      fst (_call_mcp_tool@client tool_name params sent) =
        Ret ("MCP call failed: " ++
             str_exn (HTTPError (status_code r)))%string) /\
  (forall tool_name params sent r,
      post (mkRequest tool_name params) = Ret r ->
      raise_for_status r = Ret tt ->
      json_body r = None ->
      fst (_call_mcp_tool@client tool_name params sent) =
        Ret ("MCP call failed: " ++ str_exn ResponseJSONDecodeError)%string) /\
  (forall tool_name params sent r envelope,
      post (mkRequest tool_name params) = Ret r ->
      raise_for_status r = Ret tt ->
      json_body r = Some (VDict envelope) ->
      truthy (dict_get_default "success" envelope VNone) = false ->
      fst (_call_mcp_tool@client tool_name params sent) =
        Ret ("Error: " ++
             str str_composite
                 (dict_get_default "error" envelope (VStr "Unknown error")))%string
      /\
      (forall message,
          dict_get "error" envelope = Some (VStr message) ->
          fst (_call_mcp_tool@client tool_name params sent) =
            Ret ("Error: " ++ message)%string)) /\
  (forall tool_name params sent r envelope,
      post (mkRequest tool_name params) = Ret r ->
      raise_for_status r = Ret tt ->
      json_body r = Some (VDict envelope) ->
      truthy (dict_get_default "success" envelope VNone) = true ->
      let data := dict_get_default "data" envelope VNone in
      (is_dict_or_list data = true ->
       fst (_call_mcp_tool@client tool_name params sent) =
         Ret (json_dumps_indent2 data)) /\
      (is_dict_or_list data = false ->
       fst (_call_mcp_tool@client tool_name params sent) =
         Ret (str str_composite data))) /\
  (forall customer_id data sent,
      json_loads data = JSONDecodeError ->
      tool_update_customer@client json_loads customer_id data sent =
        (Ret "Error: Invalid JSON data. Data must be a valid JSON string.",
         sent)).
Proof.
  assert (Hcall : forall tool_name params sent,
             exists text,
               _call_mcp_tool@client tool_name params sent =
                 (Ret text, sent ++ [mkRequest tool_name params])).
  { intros tool_name params sent. unfold _call_mcp_tool.
    destruct (_call_mcp_tool_try post json_dumps_indent2 str_composite
                                 tool_name params) as [text | e];
      simpl; eauto. }
  split; [exact Hcall |].
  split.
  { intros customer_id data sent Hloads. unfold tool_update_customer.
    destruct (json_loads data) as [d | | e];
      [| eauto | exfalso; exact (Hloads e eq_refl)].
    destruct (Hcall "update_customer"
                    [("customer_id", VInt customer_id); ("data", d)] sent)
      as [text ->].
    eauto. }
  split.
  { intros customer_id data sent e Hloads. unfold tool_update_customer.
    rewrite Hloads. reflexivity. }
  split.
  { intros customer_id status limit issue priority sent.
    unfold tool_get_customer, tool_list_customers, tool_create_ticket,
      tool_get_customer_history.
    repeat split;
      match goal with
      | |- exists text sent', _call_mcp_tool _ _ _ _ ?n ?p ?s = _ =>
          destruct (Hcall n p s) as [text ->]; eauto
      end. }
  clear Hcall.
  unfold _call_mcp_tool, _call_mcp_tool_try.
  repeat apply conj.
  - intros tool_name params sent e ->. reflexivity.
  - intros tool_name params sent r -> Hstatus. simpl.
    unfold raise_for_status.
    replace (400 <=? status_code r) with true by (symmetry; apply Z.leb_le; lia).
    replace (status_code r <? 600) with true by (symmetry; apply Z.ltb_lt; lia).
    reflexivity.
  - intros tool_name params sent r -> Hok Hbody. simpl.
    rewrite Hok. unfold response_json. rewrite Hbody. reflexivity.
  - intros tool_name params sent r envelope -> Hok Hbody Hfalse. simpl.
    rewrite Hok. unfold response_json. rewrite Hbody. simpl.
    rewrite Hfalse. simpl. split; [reflexivity |].
    intros message Hmessage. unfold dict_get_default. rewrite Hmessage.
    reflexivity.
  - intros tool_name params sent r envelope -> Hok Hbody Htrue. simpl.
    rewrite Hok. unfold response_json. rewrite Hbody. simpl.
    rewrite Htrue. simpl.
    split; intros ->; reflexivity.
  - intros customer_id data sent Hbad. unfold tool_update_customer.
    rewrite Hbad. reflexivity.
Qed.

(** C4, at the inputs where the code leaves it.  [json.loads] raises
    [ValueError] for an integer literal of more than 4300 digits (Python
    3.11 on) and [RecursionError] for arrays nested deeper than the
    recursion limit.  [tool_update_customer] catches neither, so the call
    with the text of 5000 digits, or of 2000 opening brackets, raises to
    the agent, where the contract is to return text; no request is sent. *)
Theorem tool_update_customer_raises_at_limits
  (otherwise : string -> json_result) (customer_id : Z) (sent : list request) :
  tool_update_customer@client (json_loads_limits otherwise) customer_id
                              (str_mul "1" 5000) sent =
    (Raise (ValueError_int_max_str_digits 5000), sent) /\
  tool_update_customer@client (json_loads_limits otherwise) customer_id
                              (str_mul "[" 2000) sent =
    (Raise RecursionError, sent).
Proof.
  unfold tool_update_customer. split.
  - replace (json_loads_limits otherwise (str_mul "1" 5000))
      with (Raised (ValueError_int_max_str_digits 5000)); [reflexivity |].
    vm_compute. reflexivity.
  - replace (json_loads_limits otherwise (str_mul "[" 2000))
      with (Raised RecursionError); [reflexivity |].
    vm_compute. reflexivity.
Qed.

End ClientProperties.

(** * Further properties of the store and the registry *)

(** ** Lookup by primary key *)

Lemma select_by_id_unique (rows : list customer) (row : customer) :
  StronglySorted Z.lt (map c_id rows) -> In row rows ->
  filter (fun c => c_id c =? c_id row) rows = [row].
Proof.
  induction rows as [| c rows IH]; simpl; intros Hs Hin; [contradiction |].
  apply StronglySorted_inv in Hs as [Hs Hall].
  rewrite Forall_forall in Hall.
  destruct Hin as [-> | Hin].
  - rewrite Z.eqb_refl. f_equal.
    apply filter_nothing. intros x Hx. apply Z.eqb_neq.
    assert (c_id row < c_id x) by (apply Hall, in_map, Hx). lia.
  - assert (Hlt : c_id c < c_id row) by (apply Hall, in_map, Hin).
    replace (c_id c =? c_id row) with false
      by (symmetry; apply Z.eqb_neq; lia).
    apply IH; assumption.
Qed.

(** In a store whose ids are distinct, [get_customer] at the id of a row
    of the table answers with that very row. *)
Theorem get_customer_returns_the_row (db : store) (row : customer)
  (Hwf : well_formed db) (Hin : In row (customers db)) :
  _get_customer_tool (c_id row) db = Ret (Success (Customer_row row) None).
Proof.
  destruct Hwf as [Hc [_ [_ Hfit]]].
  rewrite Forall_forall in Hfit.
  apply get_customer_of_fetch; [apply Hfit, Hin |].
  unfold select_customers_by_id.
  rewrite (select_by_id_unique _ _ Hc Hin). reflexivity.
Qed.

Lemma get_customer_returns_the_row_witness :
  _get_customer_tool 3 (init_db "2025-01-01T00:00:00+00:00") =
    Ret (Success
           (Customer_row
              (mkCustomer 3 (Some "Charlie Disabled")
                          (Some "charlie@example.com")
                          (Some "333-333-3333") (Some "disabled")
                          "2025-01-01T00:00:00+00:00"
                          "2025-01-01T00:00:00+00:00"))
           None).
Proof.
  apply (get_customer_returns_the_row
           (init_db "2025-01-01T00:00:00+00:00")
           (mkCustomer 3 (Some "Charlie Disabled") (Some "charlie@example.com")
                       (Some "333-333-3333") (Some "disabled")
                       "2025-01-01T00:00:00+00:00"
                       "2025-01-01T00:00:00+00:00")).
  - apply init_db_well_formed.
  - simpl. auto.
Defined.

(** ** Writes that fail, writes that succeed *)

Lemma update_customer_store (customer_id : Z) (data : pydict) (now : string)
  (db db' : store) (env : envelope) :
  _update_customer_tool customer_id data now db = Ret (env, db') ->
  (db' = db /\ exists message, env = Failure message) \/
  (exists assignments row,
      db' = update_customers assignments now customer_id db /\
      fetchone (select_customers_by_id customer_id db) = Some row /\
      env = Success
              (Customer_row
                 (set_updated_at now (apply_assignments assignments row)))
              None).
Proof.
  intros Hcall.
  destruct (update_customer_cases customer_id data now db)
    as [[_ H] | [[_ [e [_ H]]] | [_ [params [_ Hrows]]]]];
    [| congruence |].
  - rewrite H in Hcall. injection Hcall as <- <-. left. eauto.
  - cbv zeta in Hrows.
    destruct Hrows as [[row [Hfetch H]] | [_ H]];
      rewrite H in Hcall; injection Hcall as <- <-.
    + right. eauto.
    + left. eauto.
Qed.

(** A write that answers with a failure envelope has written nothing:
    [update_customer] without allow-listed field or without such a
    customer, [create_ticket] with a bad priority. *)
Theorem failed_write_changes_nothing :
  (forall customer_id data now db db' message,
      _update_customer_tool customer_id data now db =
        Ret (Failure message, db') ->
      db' = db) /\
  (forall customer_id issue priority now db db' message,
      _create_ticket_tool customer_id issue priority now db =
        Ret (Failure message, db') ->
      db' = db).
Proof.
  split.
  - intros customer_id data now db db' message Hcall.
    destruct (update_customer_store _ _ _ _ _ _ Hcall)
      as [[-> _] | [asg [row [_ [_ Henv]]]]]; [reflexivity | discriminate].
  - intros customer_id issue priority now db db' message Hcall.
    destruct (create_ticket_cases customer_id issue priority now db)
      as [[_ [_ H]] | [[_ [_ H]] | [_ H]]]; rewrite H in Hcall.
    + discriminate.
    + discriminate.
    + injection Hcall as _ <-. reflexivity.
Qed.

Lemma select_other_after_update (assignments : list (string * sqlvalue))
  (now : string) (customer_id other : Z) (db : store) :
  other <> customer_id ->
  select_customers_by_id other
    (update_customers assignments now customer_id db) =
  select_customers_by_id other db.
Proof.
  intros Hne. unfold select_customers_by_id, update_customers. simpl.
  induction (customers db) as [| c rows IH]; simpl; [reflexivity |].
  destruct (c_id c =? customer_id) eqn:E.
  - apply Z.eqb_eq in E. simpl.
    destruct (apply_assignments_frame assignments c) as [-> _].
    replace (c_id c =? other) with false
      by (symmetry; apply Z.eqb_neq; lia).
    exact IH.
  - destruct (c_id c =? other); [f_equal |]; exact IH.
Qed.

(** Each write touches one table, and of [customers] one id:
    [update_customer] changes no answer of [get_customer_history] and no
    answer of [get_customer] for another id; [create_ticket] changes no
    answer of [get_customer] or [list_customers]. *)
Theorem writes_leave_the_rest :
  (forall customer_id data now db db' env,
      _update_customer_tool customer_id data now db = Ret (env, db') ->
      tickets db' = tickets db /\
      (forall c, _get_customer_history_tool c db' =
                   _get_customer_history_tool c db) /\
      (forall other, other <> customer_id ->
                     _get_customer_tool other db' =
                       _get_customer_tool other db)) /\
  (forall customer_id issue priority now db db' env,
      _create_ticket_tool customer_id issue priority now db = Ret (env, db') ->
      customers db' = customers db /\
      (forall c, _get_customer_tool c db' = _get_customer_tool c db) /\
      (forall status limit,
          _list_customers_tool status limit db' =
            _list_customers_tool status limit db)).
Proof.
  split.
  - intros customer_id data now db db' env Hcall.
    assert (Ht : tickets db' = tickets db).
    { destruct (update_customer_store _ _ _ _ _ _ Hcall)
        as [[-> _] | [asg [row [-> _]]]]; reflexivity. }
    split; [exact Ht |]. split.
    + intros c. unfold _get_customer_history_tool, select_tickets_by_customer.
      rewrite Ht. reflexivity.
    + intros other Hne. unfold _get_customer_tool.
      destruct (update_customer_store _ _ _ _ _ _ Hcall)
        as [[-> _] | [asg [row [-> _]]]]; [reflexivity |].
      rewrite select_other_after_update by exact Hne. reflexivity.
  - intros customer_id issue priority now db db' env Hcall.
    assert (Hc : customers db' = customers db).
    { destruct (create_ticket_cases customer_id issue priority now db)
        as [[_ [_ H]] | [[_ [_ H]] | [_ H]]]; rewrite H in Hcall;
        [| discriminate |]; injection Hcall as _ <-; reflexivity. }
    split; [exact Hc |]. split.
    + intros c. unfold _get_customer_tool, select_customers_by_id.
      rewrite Hc. reflexivity.
    + intros status limit.
      unfold _list_customers_tool, select_customers_by_status,
        select_customers.
      rewrite Hc. reflexivity.
Qed.

(** ** The store over time *)

Lemma update_customers_created_at (assignments : list (string * sqlvalue))
  (now : string) (customer_id : Z) (db : store) :
  map c_created_at
      (customers (update_customers assignments now customer_id db)) =
    map c_created_at (customers db).
Proof.
  unfold update_customers. simpl.
  induction (customers db) as [| c rows IH]; simpl; [reflexivity |].
  rewrite IH. f_equal.
  destruct (c_id c =? customer_id); [| reflexivity].
  simpl. apply apply_assignments_frame.
Qed.

Lemma step_well_formed (db db' : store) :
  step db db' -> well_formed db -> well_formed db'.
Proof.
  intros [customer_id data now d d' env Hcall
         | customer_id issue priority now d d' env Hcall] Hwf.
  - eapply update_customer_well_formed; eassumption.
  - eapply create_ticket_well_formed; eassumption.
Qed.

Lemma step_customers (db db' : store) :
  step db db' ->
  map c_id (customers db') = map c_id (customers db) /\
  map c_created_at (customers db') = map c_created_at (customers db).
Proof.
  intros [customer_id data now d d' env Hcall
         | customer_id issue priority now d d' env Hcall].
  - destruct (update_customer_store _ _ _ _ _ _ Hcall)
      as [[-> _] | [asg [row [-> _]]]]; [auto |].
    split; [apply update_customers_ids | apply update_customers_created_at].
  - destruct (create_ticket_cases customer_id issue priority now d)
      as [[_ [_ H]] | [[_ [_ H]] | [_ H]]]; rewrite H in Hcall;
      [| discriminate |]; injection Hcall as _ <-; auto.
Qed.

(** A step keeps every ticket as it is and adds at most one, open and
    with one of the three priorities. *)
Lemma step_tickets (db db' : store) :
  step db db' ->
  exists created,
    tickets db' = tickets db ++ created /\
    (length created <= 1)%nat /\
    Forall (fun t => t_status t = "open" /\ In (t_priority t) priorities)
           created.
Proof.
  intros [customer_id data now d d' env Hcall
         | customer_id issue priority now d d' env Hcall].
  - exists []. rewrite app_nil_r.
    destruct (update_customer_store _ _ _ _ _ _ Hcall)
      as [[-> _] | [asg [row [-> _]]]]; simpl; auto.
  - destruct (create_ticket_cases customer_id issue priority now d)
      as [[Hin [_ H]] | [[_ [_ H]] | [_ H]]]; rewrite H in Hcall;
      [| discriminate |]; injection Hcall as _ <-.
    + eexists. split; [reflexivity |]. simpl. split; [lia |].
      constructor; [| constructor]. simpl. auto.
    + exists []. rewrite app_nil_r. simpl. auto.
Qed.

(** No tool adds, removes or renumbers a customer: in every store the
    tools reach from the seeded one, the ids are distinct and ordered, the
    customers are the six seeded ones by id, and each still has the
    [created_at] of the seeding. *)
Theorem reachable_customers_fixed (seeded_at : string) (db : store)
  (Hreach : reachable seeded_at db) :
  well_formed db /\
  map c_id (customers db) = [1; 2; 3; 4; 5; 12345] /\
  Forall (fun c => c_created_at c = seeded_at) (customers db).
Proof.
  assert (H : well_formed db /\
              map c_id (customers db) =
                map c_id (customers (init_db seeded_at)) /\
              map c_created_at (customers db) =
                map c_created_at (customers (init_db seeded_at))).
  { induction Hreach as [| db db' _ [Hwf [Hids Hcreated]] Hstep].
    - split; [apply init_db_well_formed | auto].
    - destruct (step_customers _ _ Hstep) as [-> ->].
      split; [eapply step_well_formed; eassumption | auto]. }
  destruct H as [Hwf [Hids Hcreated]].
  split; [exact Hwf |]. split; [exact Hids |].
  apply (Forall_map c_created_at (fun created => created = seeded_at)).
  rewrite Hcreated. simpl. repeat constructor.
Qed.

Lemma reachable_customers_fixed_witness :
  exists env db',
    _create_ticket_tool 3 "Cannot log in" "HIGH" "2025-06-01T12:00:00+00:00"
                        (init_db "2025-01-01T00:00:00+00:00") =
      Ret (env, db') /\
    map c_id (customers db') = [1; 2; 3; 4; 5; 12345].
Proof.
  destruct (create_ticket_cases 3 "Cannot log in" "HIGH"
              "2025-06-01T12:00:00+00:00"
              (init_db "2025-01-01T00:00:00+00:00"))
    as [[_ [_ H]] | [[_ [Hfits _]] | [Hout _]]].
  - do 2 eexists. split; [exact H |].
    apply (reachable_customers_fixed "2025-01-01T00:00:00+00:00").
    eapply reachable_step;
      [apply reachable_seeded | eapply step_create_ticket; exact H].
  - discriminate Hfits.
  - exfalso. apply Hout. right. right. left. reflexivity.
Defined.

(** Tickets are append-only: in every store the tools reach, the seeded
    tickets are still the first rows, unchanged, the rows after them are
    tickets with status [open], and every ticket has one of the three
    priorities. *)
Theorem reachable_tickets_append_only (seeded_at : string) (db : store)
  (Hreach : reachable seeded_at db) :
  (exists created,
      tickets db = tickets (init_db seeded_at) ++ created /\
      Forall (fun t => t_status t = "open") created) /\
  Forall (fun t => In (t_priority t) priorities) (tickets db).
Proof.
  assert (H : exists created,
             tickets db = tickets (init_db seeded_at) ++ created /\
             Forall (fun t => t_status t = "open" /\
                              In (t_priority t) priorities) created).
  { induction Hreach as [| db db' _ [created [Hdb Hcreated]] Hstep].
    - exists []. rewrite app_nil_r. auto.
    - destruct (step_tickets _ _ Hstep) as [more [-> [_ Hmore]]].
      exists (created ++ more). rewrite Hdb, app_assoc.
      split; [reflexivity | apply Forall_app; auto]. }
  destruct H as [created [Hdb Hcreated]].
  split.
  - exists created. split; [exact Hdb |].
    eapply Forall_impl; [| exact Hcreated]. simpl. tauto.
  - rewrite Hdb. apply Forall_app. split.
    + simpl. repeat (apply Forall_cons; [simpl; auto 6 |]). apply Forall_nil.
    + eapply Forall_impl; [| exact Hcreated]. simpl. tauto.
Qed.

Lemma reachable_tickets_append_only_witness :
  exists env db',
    _create_ticket_tool 3 "Cannot log in" "HIGH" "2025-06-01T12:00:00+00:00"
                        (init_db "2025-01-01T00:00:00+00:00") =
      Ret (env, db') /\
    Forall (fun t => In (t_priority t) priorities) (tickets db').
Proof.
  destruct (create_ticket_cases 3 "Cannot log in" "HIGH"
              "2025-06-01T12:00:00+00:00"
              (init_db "2025-01-01T00:00:00+00:00"))
    as [[_ [_ H]] | [[_ [Hfits _]] | [Hout _]]].
  - do 2 eexists. split; [exact H |].
    apply (reachable_tickets_append_only "2025-01-01T00:00:00+00:00").
    eapply reachable_step;
      [apply reachable_seeded | eapply step_create_ticket; exact H].
  - discriminate Hfits.
  - exfalso. apply Hout. right. right. left. reflexivity.
Defined.

(** ** create_ticket, then get_customer_history *)

Lemma string_ltb_not_leb (a b : string) :
  String.ltb a b = true -> String.leb b a = false.
Proof.
  unfold String.ltb, String.leb. rewrite (String.compare_antisym a b).
  destruct (String.compare b a); simpl; congruence.
Qed.

Lemma newest_stays_first (row : ticket) (rows : list ticket) :
  (forall u, In u rows ->
             String.ltb (t_created_at u) (t_created_at row) = true) ->
  fold_right insert_desc [row] rows =
    row :: order_by_created_at_desc rows.
Proof.
  unfold order_by_created_at_desc.
  induction rows as [| u rows IH]; simpl; intros Hlt; [reflexivity |].
  rewrite IH by auto. simpl.
  rewrite (string_ltb_not_leb _ _ (Hlt u (or_introl eq_refl))).
  reflexivity.
Qed.

Lemma newest_added_perm (row : ticket) (rows : list ticket) :
  Permutation (fold_right insert_desc [row] rows)
              (row :: order_by_created_at_desc rows).
Proof.
  unfold order_by_created_at_desc.
  induction rows as [| u rows IH]; simpl; [apply Permutation_refl |].
  eapply perm_trans; [apply insert_desc_perm |].
  eapply perm_trans; [apply perm_skip, IH |].
  eapply perm_trans; [apply perm_swap |].
  apply perm_skip, Permutation_sym, insert_desc_perm.
Qed.

(** A ticket that [create_ticket] accepted is in the history of its
    customer from then on: that history is the former one with the new
    row added and its [count] is one more; the new row is first when its
    clock reading is later than the [created_at] of every earlier ticket
    of the customer; the history of every other customer is as before. *)
Theorem created_ticket_in_history
  (customer_id : Z) (issue priority now : string) (db db' : store)
  (row : ticket)
  (Hcreated : _create_ticket_tool customer_id issue priority now db =
                Ret (Success (Ticket_row row) None, db')) :
  exists rows,
    _get_customer_history_tool customer_id db =
      Ret (Success (Ticket_rows rows) (Some (length rows))) /\
    (exists rows',
        _get_customer_history_tool customer_id db' =
          Ret (Success (Ticket_rows rows') (Some (S (length rows)))) /\
        Permutation rows' (row :: rows)) /\
    ((forall t, In t (tickets db) -> t_customer_id t = customer_id ->
                String.ltb (t_created_at t) now = true) ->
     _get_customer_history_tool customer_id db' =
       Ret (Success (Ticket_rows (row :: rows)) (Some (S (length rows))))) /\
    (forall other, other <> customer_id ->
       _get_customer_history_tool other db' =
       _get_customer_history_tool other db).
Proof.
  destruct (create_ticket_cases customer_id issue priority now db)
    as [[_ [Hfits H]] | [[_ [_ H]] | [_ H]]]; rewrite H in Hcreated;
    [| discriminate | discriminate].
  injection Hcreated as <- <-.
  set (row := mkTicket (next_ticket_id db) customer_id issue "open"
                       (lower priority) now).
  exists (select_tickets_by_customer customer_id db).
  assert (Hsel : forall c,
             select_tickets_by_customer c
               (mkStore (customers db) (tickets db ++ [row])) =
             fold_right insert_desc
               (if customer_id =? c then [row] else [])
               (filter (fun t => t_customer_id t =? c) (tickets db))).
  { intros c. unfold select_tickets_by_customer, order_by_created_at_desc.
    cbn [tickets]. rewrite filter_app, fold_right_app. cbn [filter].
    change (t_customer_id row) with customer_id.
    destruct (customer_id =? c); reflexivity. }
  rewrite !(get_customer_history_in_range customer_id _ Hfits).
  split; [reflexivity |]. split; [| split].
  - eexists. split.
    + f_equal. f_equal. f_equal. rewrite Hsel, Z.eqb_refl.
      rewrite (Permutation_length (newest_added_perm row _)). reflexivity.
    + rewrite Hsel, Z.eqb_refl. apply newest_added_perm.
  - intros Hlater. rewrite Hsel, Z.eqb_refl.
    rewrite newest_stays_first; [reflexivity |].
    intros u Hu. apply filter_In in Hu as [Hu Hc].
    apply Z.eqb_eq in Hc. exact (Hlater u Hu Hc).
  - intros other Hne. unfold _get_customer_history_tool. rewrite Hsel.
    replace (customer_id =? other) with false
      by (symmetry; apply Z.eqb_neq; lia).
    reflexivity.
Qed.

Lemma created_ticket_in_history_witness :
  exists row db' rows rows',
    _create_ticket_tool 1 "Refund not received" "High"
                        "2025-06-01T12:00:00+00:00"
                        (init_db "2025-01-01T00:00:00+00:00") =
      Ret (Success (Ticket_row row) None, db') /\
    _get_customer_history_tool 1 (init_db "2025-01-01T00:00:00+00:00") =
      Ret (Success (Ticket_rows rows) (Some (length rows))) /\
    _get_customer_history_tool 1 db' =
      Ret (Success (Ticket_rows rows') (Some (S (length rows)))) /\
    Permutation rows' (row :: rows).
Proof.
  destruct (create_ticket_cases 1 "Refund not received" "High"
              "2025-06-01T12:00:00+00:00"
              (init_db "2025-01-01T00:00:00+00:00"))
    as [[_ [_ H]] | [[_ [Hfits _]] | [Hout _]]].
  - destruct (created_ticket_in_history 1 "Refund not received" "High"
                "2025-06-01T12:00:00+00:00"
                (init_db "2025-01-01T00:00:00+00:00") _ _ H)
      as [rows [Hbefore [[rows' [Hafter Hperm]] _]]].
    do 2 eexists. exists rows, rows'.
    split; [exact H |]. split; [exact Hbefore |].
    split; [exact Hafter | exact Hperm].
  - discriminate Hfits.
  - exfalso. apply Hout. right. right. left. reflexivity.
Defined.

(** ** update_customer again, and update_customer then list_customers *)

Lemma customer_ext (c d : customer) :
  c_id c = c_id d ->
  (forall k, In k allowed_fields -> get_column k c = get_column k d) ->
  c_created_at c = c_created_at d ->
  c_updated_at c = c_updated_at d ->
  c = d.
Proof.
  intros Hid Hcols Hcreated Hupdated.
  pose proof (Hcols "name") as Hname.
  pose proof (Hcols "email") as Hemail.
  pose proof (Hcols "phone") as Hphone.
  pose proof (Hcols "status") as Hstatus.
  destruct c, d. unfold get_column in *. simpl in *.
  rewrite Hid, Hcreated, Hupdated.
  rewrite Hname, Hemail, Hphone, Hstatus by auto 6.
  reflexivity.
Qed.

(** Writing a row twice is writing it once, at the later clock reading. *)
Lemma updated_row_again (data : pydict) (params : list sqlvalue)
  (now1 now2 : string) (row : customer) :
  is_dict data ->
  bind_parameters 0 (map snd (allowed_updates data)) = Ret params ->
  let write := fun now c =>
    set_updated_at now
      (apply_assignments (combine (map fst (allowed_updates data)) params) c)
  in
  write now2 (write now1 row) = write now2 row.
Proof.
  intros Hdict Hb write. subst write. cbv beta.
  destruct (updated_row_columns data params now1 row Hdict Hb)
    as [Hcols1 _].
  destruct (updated_row_columns data params now2 row Hdict Hb)
    as [Hcols2 [Hid2 [Hcreated2 Hupdated2]]].
  cbv zeta in Hcols1, Hcols2, Hid2, Hcreated2, Hupdated2.
  destruct (updated_row_columns data params now2
              (set_updated_at now1
                 (apply_assignments
                    (combine (map fst (allowed_updates data)) params) row))
              Hdict Hb)
    as [Hcols [Hid [Hcreated Hupdated]]].
  cbv zeta in Hcols, Hid, Hcreated, Hupdated.
  destruct (apply_assignments_frame
              (combine (map fst (allowed_updates data)) params) row)
    as [Hid1 [Hcreated1 _]].
  apply customer_ext.
  - rewrite Hid, Hid2. cbn [c_id set_updated_at]. exact Hid1.
  - intros k Hk. rewrite (Hcols k Hk), (Hcols2 k Hk), (Hcols1 k Hk).
    destruct (dict_get k data); reflexivity.
  - rewrite Hcreated, Hcreated2. cbn [c_created_at set_updated_at].
    exact Hcreated1.
  - rewrite Hupdated, Hupdated2. reflexivity.
Qed.

Lemma update_customers_again (data : pydict) (params : list sqlvalue)
  (now1 now2 : string) (customer_id : Z) (db : store) :
  is_dict data ->
  bind_parameters 0 (map snd (allowed_updates data)) = Ret params ->
  let assignments := combine (map fst (allowed_updates data)) params in
  update_customers assignments now2 customer_id
    (update_customers assignments now1 customer_id db) =
  update_customers assignments now2 customer_id db.
Proof.
  intros Hdict Hb assignments. subst assignments.
  unfold update_customers. cbn [customers tickets]. f_equal.
  rewrite map_map. apply map_ext. intros c.
  destruct (c_id c =? customer_id) eqn:E.
  - cbn [c_id set_updated_at].
    destruct (apply_assignments_frame
                (combine (map fst (allowed_updates data)) params) c)
      as [-> _].
    rewrite E. apply (updated_row_again data params now1 now2 c Hdict Hb).
  - rewrite E. reflexivity.
Qed.

(** Repeating an update is harmless.  After [update_customer] has
    answered, the same payload for the same customer, sent again at a
    clock reading [now2], answers and leaves the store exactly as if it
    had been sent once, at [now2]; sent again at the same reading, it
    gives the same answer and leaves the store as it is. *)
Theorem update_customer_absorbs_repeat
  (customer_id : Z) (data : pydict) (now1 now2 : string) (db db' : store)
  (env : envelope)
  (Hdict : is_dict data)
  (Hfirst : _update_customer_tool customer_id data now1 db = Ret (env, db')) :
  _update_customer_tool customer_id data now2 db' =
    _update_customer_tool customer_id data now2 db /\
  _update_customer_tool customer_id data now1 db' = Ret (env, db').
Proof.
  assert (Habsorb : forall now,
             _update_customer_tool customer_id data now db' =
               _update_customer_tool customer_id data now db).
  { intros now.
    destruct (update_customer_cases customer_id data now1 db)
      as [[_ H] | [[_ [e [_ H]]] | [Hsome [params [Hb Hrows]]]]];
      [| congruence |].
    - rewrite H in Hfirst. injection Hfirst as _ <-. reflexivity.
    - cbv zeta in Hrows.
      pose proof (update_customer_returns_in_range _ _ _ _ _ _ Hsome Hfirst)
        as Hfits.
      destruct Hrows as [[row [Hfetch H]] | [_ H]];
        rewrite H in Hfirst; injection Hfirst as _ <-; [| reflexivity].
      destruct (update_customer_cases customer_id data now db)
        as [[Hempty _]
           | [[_ [e [[He | [_ [He _]]] _]]] | [_ [params0 [Hb0 Hrows0]]]]];
        [congruence | congruence | congruence |].
      assert (params0 = params) by congruence. subst params0.
      cbv zeta in Hrows0.
      destruct Hrows0 as [[row0 [Hfetch0 H0]] | [Hnone _]]; [| congruence].
      assert (row0 = row) by congruence. subst row0.
      destruct (update_customer_cases customer_id data now
                  (update_customers
                     (combine (map fst (allowed_updates data)) params)
                     now1 customer_id db))
        as [[Hempty _]
           | [[_ [e [[He | [_ [He _]]] _]]] | [_ [params' [Hb' Hrows']]]]];
        [congruence | congruence | congruence |].
      assert (params' = params) by congruence. subst params'.
      cbv zeta in Hrows'.
      rewrite select_after_update, Hfetch in Hrows'.
      cbn [option_map] in Hrows'.
      destruct Hrows' as [[row' [Hfetch' H']] | [Hnone _]]; [| discriminate].
      injection Hfetch' as <-.
      rewrite H', H0.
      rewrite (update_customers_again data params now1 now customer_id db
                 Hdict Hb).
      rewrite (updated_row_again data params now1 now row Hdict Hb).
      reflexivity. }
  split; [apply Habsorb |].
  rewrite Habsorb. exact Hfirst.
Qed.

Lemma update_customer_absorbs_repeat_witness :
  exists env db',
    _update_customer_tool 2 [("phone", VInt 2220000); ("plan", VStr "gold")]
        "2025-06-01T12:00:00+00:00" (init_db "2025-01-01T00:00:00+00:00") =
      Ret (env, db') /\
    _update_customer_tool 2 [("phone", VInt 2220000); ("plan", VStr "gold")]
        "2025-06-01T12:00:00+00:00" db' = Ret (env, db').
Proof.
  eexists. eexists. split; [reflexivity |].
  apply (update_customer_absorbs_repeat 2
           [("phone", VInt 2220000); ("plan", VStr "gold")]
           "2025-06-01T12:00:00+00:00" "2025-06-02T12:00:00+00:00"
           (init_db "2025-01-01T00:00:00+00:00")).
  - unfold is_dict. simpl. repeat constructor; simpl; intuition discriminate.
  - reflexivity.
Defined.

Lemma updated_rows_status (data : pydict) (params : list sqlvalue)
  (now : string) (s : string) (c : customer) :
  is_dict data ->
  bind_parameters 0 (map snd (allowed_updates data)) = Ret params ->
  dict_get "status" data = Some (VStr s) ->
  c_status
    (set_updated_at now
       (apply_assignments (combine (map fst (allowed_updates data)) params) c))
  = Some s.
Proof.
  intros Hdict Hb Hs.
  destruct (updated_row_columns data params now c Hdict Hb) as [Hcols _].
  cbv zeta in Hcols.
  specialize (Hcols "status"). rewrite Hs in Hcols.
  apply Hcols. simpl. auto 6.
Qed.

(** After [update_customer] has set the status of a customer to a
    non-empty string, [list_customers] without limit (a negative one)
    under that status lists the updated row, and [list_customers] under
    any other non-empty status lists no row of that customer. *)
Theorem updated_status_moves_customer
  (customer_id : Z) (data : pydict) (now s : string) (db db' : store)
  (row' : customer)
  (Hdict : is_dict data)
  (Hstatus : dict_get "status" data = Some (VStr s))
  (Hne : s <> "")
  (Hupdate : _update_customer_tool customer_id data now db =
               Ret (Success (Customer_row row') None, db')) :
  (forall limit, limit < 0 -> fits_int64 limit = true ->
     exists rows,
       _list_customers_tool (Some s) limit db' =
         Ret (Success (Customer_rows rows) (Some (length rows))) /\
       In row' rows) /\
  (forall other limit rows count row,
     other <> s -> other <> "" ->
     _list_customers_tool (Some other) limit db' =
       Ret (Success (Customer_rows rows) count) ->
     In row rows -> c_id row <> customer_id).
Proof.
  destruct (update_customer_cases customer_id data now db)
    as [[_ H] | [[_ [e [_ H]]] | [_ [params [Hb Hrows]]]]];
    try congruence.
  cbv zeta in Hrows.
  destruct Hrows as [[row0 [Hfetch H]] | [_ H]]; [| congruence].
  rewrite H in Hupdate. injection Hupdate as Hrow' Hdb'.
  assert (Hin : In row' (customers db') /\ c_id row' = customer_id).
  { assert (Hget : fetchone (select_customers_by_id customer_id db') = Some row').
    { rewrite <- Hdb', select_after_update, Hfetch. simpl. congruence. }
    apply fetchone_filter_some in Hget as [Hin Hid].
    apply Z.eqb_eq in Hid. auto. }
  assert (Hs' : c_status row' = Some s).
  { rewrite <- Hrow'. eapply updated_rows_status; eassumption. }
  split.
  - intros limit Hlimit Hfits.
    destruct (list_customers_rows (Some s) limit db' Hfits)
      as [rows [Hcall Hrows]].
    exists rows. split; [exact Hcall |].
    destruct Hrows as [[s0 [[= <-] [_ ->]]] | [[Hnone | [= Hempty]] _]];
      [| discriminate | congruence].
    unfold sql_limit.
    replace (limit <? 0) with true by (symmetry; apply Z.ltb_lt; lia).
    apply filter_In. split; [apply Hin | apply status_is_spec; exact Hs'].
  - intros other limit rows count row Hother Hnonempty Hcall Hrow Hid.
    destruct (list_customers_rows (Some other) limit db'
                (list_customers_returns _ _ _ _ Hcall))
      as [rows0 [Hcall0 Hrows]].
    rewrite Hcall0 in Hcall. injection Hcall as -> _.
    destruct Hrows as [[s0 [[= <-] [_ ->]]] | [[Hnone | [= Hempty]] _]];
      [| discriminate | congruence].
    apply (subsequence_In _ _ _ (sql_limit_subsequence _ _)) in Hrow.
    apply filter_In in Hrow as [Hrow Hst].
    apply status_is_spec in Hst.
    rewrite <- Hdb' in Hrow. unfold update_customers in Hrow.
    cbn [customers] in Hrow.
    apply in_map_iff in Hrow as [c [Hc _]].
    destruct (c_id c =? customer_id) eqn:E.
    + rewrite <- Hc in Hst.
      rewrite (updated_rows_status data params now s c Hdict Hb Hstatus) in Hst.
      congruence.
    + subst c. apply Z.eqb_neq in E. contradiction.
Qed.

Lemma updated_status_moves_customer_witness :
  exists row' db' rows,
    _update_customer_tool 1 [("status", VStr "disabled")]
        "2025-06-01T12:00:00+00:00" (init_db "2025-01-01T00:00:00+00:00") =
      Ret (Success (Customer_row row') None, db') /\
    _list_customers_tool (Some "disabled") (-1) db' =
      Ret (Success (Customer_rows rows) (Some (length rows))) /\
    In row' rows.
Proof.
  eexists. eexists.
  assert (Hdict : is_dict [("status", VStr "disabled")]).
  { unfold is_dict. simpl. repeat constructor. simpl. tauto. }
  destruct (updated_status_moves_customer 1 [("status", VStr "disabled")]
              "2025-06-01T12:00:00+00:00" "disabled"
              (init_db "2025-01-01T00:00:00+00:00") _ _
              Hdict eq_refl ltac:(discriminate) eq_refl) as [Hlisted _].
  destruct (Hlisted (-1) ltac:(lia) eq_refl) as [rows [Hcall Hin]].
  exists rows. split; [reflexivity |]. split; assumption.
Defined.

(** ** list_customers without an effective limit *)

Lemma sql_limit_all {A : Type} (limit : Z) (rows table : list A) :
  limit < 0 \/ Z.of_nat (length table) <= limit ->
  (length rows <= length table)%nat ->
  sql_limit limit rows = rows.
Proof.
  intros Hlimit Hlen. unfold sql_limit.
  destruct (limit <? 0) eqn:E; [reflexivity |].
  apply Z.ltb_ge in E. apply firstn_all2. lia.
Qed.

(** With a limit within signed 64 bits that is negative, or at least the
    number of customers, [list_customers] leaves nobody out: its rows are
    exactly the customers of the table that have the status asked for,
    all of them when no status or the empty one is given. *)
Theorem list_customers_complete
  (status : option string) (limit : Z) (db : store)
  (Hfits : fits_int64 limit = true)
  (Hlimit : limit < 0 \/ Z.of_nat (length (customers db)) <= limit) :
  exists rows,
    _list_customers_tool status limit db =
      Ret (Success (Customer_rows rows) (Some (length rows))) /\
    forall c,
      In c rows <->
      In c (customers db) /\
      match status with
      | Some s => s = "" \/ c_status c = Some s
      | None => True
      end.
Proof.
  destruct (list_customers_rows status limit db Hfits)
    as [rows [Hcall Hrows]].
  exists rows. split; [exact Hcall |].
  intros c.
  destruct Hrows as [[s [-> [Hne ->]]] | [Hstatus ->]].
  - rewrite (sql_limit_all limit _ (customers db) Hlimit)
      by apply filter_length_le.
    rewrite filter_In, status_is_spec. intuition congruence.
  - rewrite (sql_limit_all limit _ (customers db) Hlimit) by lia.
    destruct Hstatus as [-> | ->]; intuition.
Qed.

Lemma list_customers_complete_witness :
  exists rows,
    _list_customers_tool (Some "active") 100
                         (init_db "2025-01-01T00:00:00+00:00") =
      Ret (Success (Customer_rows rows) (Some (length rows))) /\
    forall c,
      In c rows <->
      In c (customers (init_db "2025-01-01T00:00:00+00:00")) /\
      ("active" = "" \/ c_status c = Some "active").
Proof.
  apply (list_customers_complete (Some "active") 100
           (init_db "2025-01-01T00:00:00+00:00")).
  - reflexivity.
  - right. simpl. lia.
Defined.

(** * Further properties of the dispatch, the bridge and the client *)

Section DispatchProperties.

Variable str_exn : exn -> string.
Variable untyped :
  string -> pydict -> string -> store -> outcome (envelope * store).

(** What [call_tool] does with keyword arguments of the annotated types,
    in the order the tool client sends them: the tool runs inside the
    [try]. *)
Lemma call_tool_typed (now : string) (db : store) :
  let handler := fun e => Ret (Failure (str_exn e), db) in
  (forall customer_id,
     call_tool str_exn untyped "get_customer"
               [("customer_id", VInt customer_id)] now db =
       try_except (result <- _get_customer_tool customer_id db ;;
                   Ret (result, db)) handler) /\
  (forall limit,
     call_tool str_exn untyped "list_customers" [("limit", VInt limit)] now db =
       try_except (result <- _list_customers_tool None limit db ;;
                   Ret (result, db)) handler) /\
  (forall limit s,
     call_tool str_exn untyped "list_customers"
               [("limit", VInt limit); ("status", VStr s)] now db =
       try_except (result <- _list_customers_tool (Some s) limit db ;;
                   Ret (result, db)) handler) /\
  (forall customer_id data,
     call_tool str_exn untyped "update_customer"
               [("customer_id", VInt customer_id); ("data", VDict data)]
               now db =
       try_except (_update_customer_tool customer_id data now db) handler) /\
  (forall customer_id issue priority,
     call_tool str_exn untyped "create_ticket"
               [("customer_id", VInt customer_id); ("issue", VStr issue);
                ("priority", VStr priority)] now db =
       try_except (_create_ticket_tool customer_id issue priority now db)
                  handler) /\
  (forall customer_id,
     call_tool str_exn untyped "get_customer_history"
               [("customer_id", VInt customer_id)] now db =
       try_except (result <- _get_customer_history_tool customer_id db ;;
                   Ret (result, db)) handler).
Proof.
  intros handler. repeat split; intros; reflexivity.
Qed.

(** Arguments left out take the defaults of the signatures: a ticket
    created without [priority] has priority [medium]; [list_customers]
    without [limit] lists at most 100 customers, and without [status] it
    does not filter. *)
Theorem call_tool_defaults (now : string) (db : store) :
  (forall customer_id issue,
      fits_int64 customer_id = true ->
      call_tool str_exn untyped "create_ticket"
                [("customer_id", VInt customer_id); ("issue", VStr issue)]
                now db =
        _create_ticket_tool customer_id issue "medium" now db /\
      exists row,
        _create_ticket_tool customer_id issue "medium" now db =
          Ret (Success (Ticket_row row) None,
               mkStore (customers db) (tickets db ++ [row])) /\
        t_priority row = "medium") /\
  (forall status,
      exists rows,
        call_tool str_exn untyped "list_customers"
                  (match status with
                   | Some s => [("status", VStr s)]
                   | None => []
                   end) now db =
          Ret (Success (Customer_rows rows) (Some (length rows)), db) /\
        _list_customers_tool status 100 db =
          Ret (Success (Customer_rows rows) (Some (length rows))) /\
        (length rows <= 100)%nat) /\
  call_tool str_exn untyped "list_customers" [] now db =
    Ret (Success (Customer_rows (firstn 100 (customers db)))
                 (Some (length (firstn 100 (customers db)))), db).
Proof.
  split; [| split].
  - intros customer_id issue Hfits.
    destruct (create_ticket_cases customer_id issue "medium" now db)
      as [[_ [_ H]] | [[_ [Hover _]] | [H _]]].
    + split; [| eexists; split; [exact H | reflexivity]].
      change (call_tool str_exn untyped "create_ticket"
                [("customer_id", VInt customer_id); ("issue", VStr issue)]
                now db)
        with (try_except
                (_create_ticket_tool customer_id issue "medium" now db)
                (fun e => Ret (Failure (str_exn e), db))).
      rewrite H. reflexivity.
    + congruence.
    + exfalso. apply H. simpl. auto.
  - intros status.
    destruct (list_customers_rows status 100 db eq_refl)
      as [rows [Hcall Hrows]].
    exists rows. split; [| split; [exact Hcall |]].
    + destruct status as [s |].
      * change (call_tool str_exn untyped "list_customers"
                  [("status", VStr s)] now db)
          with (try_except
                  (result <- _list_customers_tool (Some s) 100 db ;;
                   Ret (result, db))
                  (fun e => Ret (Failure (str_exn e), db))).
        rewrite Hcall. reflexivity.
      * change (call_tool str_exn untyped "list_customers" [] now db)
          with (try_except
                  (result <- _list_customers_tool None 100 db ;;
                   Ret (result, db))
                  (fun e => Ret (Failure (str_exn e), db))).
        rewrite Hcall. reflexivity.
    + assert (H : Z.of_nat (length rows) <= 100)
        by (destruct Hrows as [[s [_ [_ ->]]] | [_ ->]];
            apply sql_limit_length; lia).
      lia.
  - reflexivity.
Qed.

End DispatchProperties.

Section BridgeProperties.

Import Bridge.

Variable str_exn : exn -> string.
Variable str_call_error : call_error -> string.
Variable untyped :
  string -> pydict -> string -> store -> outcome (envelope * store).

(** What [GET /tools] lists is what the registry serves: the names are
    the registered ones, in the same order, and a call of a listed tool
    with a keyword that is not among its listed parameters is refused
    with the [TypeError] for that keyword (the first such one), the store
    left as it was. *)
Theorem tools_list_matches_registry :
  map td_name mcp_tools_list = map fst (tools untyped) /\
  (forall entry kwargs now db k v,
      In entry mcp_tools_list ->
      find (fun kv => negb (str_in (fst kv) (map fst (td_parameters entry))))
           kwargs = Some (k, v) ->
      call_tool str_exn untyped (td_name entry) kwargs now db =
        Ret (Failure
               (str_exn
                  (TypeError_unexpected_keyword
                     ("_" ++ td_name entry ++ "_tool") k)),
             db)).
Proof.
  split; [reflexivity |].
  intros entry kwargs now db k v Hentry Hfind.
  unfold call_tool.
  simpl in Hentry.
  destruct Hentry as [<- | [<- | [<- | [<- | [<- | []]]]]];
    cbn [td_name td_parameters map fst] in *;
    cbn [lookup_tool tools String.eqb Ascii.eqb Bool.eqb];
    unfold call_get_customer, call_list_customers, call_update_customer,
      call_create_ticket, call_get_customer_history, bind_keywords;
    cbn [app]; rewrite Hfind; reflexivity.
Qed.

Lemma tools_list_matches_registry_example (now : string) (db : store) :
  call_tool str_exn untyped "create_ticket"
            [("customer_id", VInt 1); ("issue", VStr "x");
             ("urgency", VStr "high")] now db =
    Ret (Failure (str_exn (TypeError_unexpected_keyword "_create_ticket_tool"
                                                        "urgency")), db).
Proof. reflexivity. Qed.

Lemma call_tool_returns (tool_name : string) (kwargs : pydict) (now : string)
  (db : store) :
  exists env db',
    call_tool str_exn untyped tool_name kwargs now db = Ret (env, db').
Proof.
  unfold call_tool.
  destruct (lookup_tool tool_name (tools untyped)) as [f |]; [| eauto].
  destruct (f kwargs now db) as [[env db'] | e]; simpl; eauto.
Qed.

Lemma find_colliding_none (params : pydict) :
  (forall k, In k (map fst params) -> k <> "self" /\ k <> "tool_name") ->
  find (fun kv => str_in (fst kv) ["self"; "tool_name"]) params = None.
Proof.
  induction params as [| [k v] rest IH]; intros Hkeys; [reflexivity |].
  cbn [find fst].
  destruct (str_in k ["self"; "tool_name"]) eqn:E.
  - apply str_in_spec in E. destruct (Hkeys k) as [H1 H2]; [simpl; auto |].
    simpl in E. intuition congruence.
  - apply IH. intros k' Hk'. apply Hkeys. simpl. auto.
Qed.

(** [POST /call] answers a request that does not get as far as a tool
    with status 500, a failure envelope that carries the message of the
    exception, and the store untouched: the body is not JSON, is no
    object, its [params] are no object or carry a key [self] or
    [tool_name], or its [tool] is a list or an object.  A body without
    [tool] reaches no tool either; it is answered with status 200 and
    "Unknown tool: None". *)
Theorem mcp_call_tool_answers (now : string) (db : store) :
  (forall e,
      mcp_call_tool str_exn str_call_error untyped (Raise e) now db =
        (mkHttpResponse 500 (Failure (str_exn e)), db)) /\
  (forall body,
      (forall d, body <> VDict d) ->
      mcp_call_tool str_exn str_call_error untyped (Ret body) now db =
        (mkHttpResponse 500 (Failure (str_exn (AttributeError body "get"))),
         db)) /\
  (forall d params,
      dict_get "params" d = Some params ->
      (forall kwargs, params <> VDict kwargs) ->
      mcp_call_tool str_exn str_call_error untyped (Ret (VDict d)) now db =
        (mkHttpResponse 500
           (Failure (str_call_error (Not_a_mapping params))), db)) /\
  (forall d kwargs k v,
      dict_get "params" d = Some (VDict kwargs) ->
      find (fun kv => str_in (fst kv) ["self"; "tool_name"]) kwargs =
        Some (k, v) ->
      mcp_call_tool str_exn str_call_error untyped (Ret (VDict d)) now db =
        (mkHttpResponse 500
           (Failure (str_call_error (Multiple_values k))), db)) /\
  (forall d kwargs,
      dict_get_default "params" d (VDict []) = VDict kwargs ->
      (forall k, In k (map fst kwargs) -> k <> "self" /\ k <> "tool_name") ->
      dict_get "tool" d = None ->
      mcp_call_tool str_exn str_call_error untyped (Ret (VDict d)) now db =
        (mkHttpResponse 200 (Failure "Unknown tool: None"), db)) /\
  (forall d kwargs tool_name,
      dict_get_default "params" d (VDict []) = VDict kwargs ->
      (forall k, In k (map fst kwargs) -> k <> "self" /\ k <> "tool_name") ->
      dict_get "tool" d = Some tool_name ->
      Client.is_dict_or_list tool_name = true ->
      mcp_call_tool str_exn str_call_error untyped (Ret (VDict d)) now db =
        (mkHttpResponse 500
           (Failure (str_call_error (Unhashable tool_name))), db)).
Proof.
  repeat apply conj.
  - reflexivity.
  - intros body Hbody. unfold mcp_call_tool, mcp_call_tool_try, body_get.
    destruct body; try reflexivity. exfalso. eapply Hbody. reflexivity.
  - intros d params Hparams Hnot.
    unfold mcp_call_tool, mcp_call_tool_try, body_get, dict_get_default.
    rewrite Hparams. cbn [and_then]. unfold keywords_of.
    destruct params; try reflexivity. exfalso. eapply Hnot. reflexivity.
  - intros d kwargs k v Hparams Hfind.
    unfold mcp_call_tool, mcp_call_tool_try, body_get, dict_get_default.
    rewrite Hparams. cbn [and_then]. unfold keywords_of.
    rewrite Hfind. reflexivity.
  - intros d kwargs Hparams Hkeys Htool.
    unfold mcp_call_tool, mcp_call_tool_try, body_get.
    rewrite Hparams. unfold dict_get_default. rewrite Htool.
    cbn [and_then]. unfold keywords_of.
    rewrite (find_colliding_none kwargs Hkeys). reflexivity.
  - intros d kwargs tool_name Hparams Hkeys Htool Hcomposite.
    unfold mcp_call_tool, mcp_call_tool_try, body_get.
    rewrite Hparams. unfold dict_get_default. rewrite Htool.
    cbn [and_then]. unfold keywords_of.
    rewrite (find_colliding_none kwargs Hkeys).
    destruct tool_name; try discriminate; reflexivity.
Qed.

(** ** The tool client in front of the bridge *)

Variable json_dumps_indent2 : pyvalue -> string.
Variable str_composite : pyvalue -> string.
Variable json_loads : string -> Client.json_result.

(** A client function whose requests go to the bridge over [db]. *)
Local Notation "f @bridge now db" :=
  (f str_exn (bridge_post str_exn str_call_error untyped now db)
     json_dumps_indent2 str_composite)
  (at level 1, now at level 0, db at level 0, only parsing).

Lemma bridge_answers_request (tool_name : string) (params : pydict)
  (now : string) (db db' : store) (env : envelope) :
  (forall k, In k (map fst params) -> k <> "self" /\ k <> "tool_name") ->
  call_tool str_exn untyped tool_name params now db = Ret (env, db') ->
  mcp_call_tool str_exn str_call_error untyped
    (Ret (request_to_json (Client.mkRequest tool_name params))) now db =
    (mkHttpResponse 200 env, db').
Proof.
  intros Hkeys Hcall.
  unfold mcp_call_tool, mcp_call_tool_try, request_to_json, body_get.
  cbn [Client.req_tool Client.req_params].
  change (dict_get_default "tool"
            [("tool", VStr tool_name); ("params", VDict params)] VNone)
    with (VStr tool_name).
  change (dict_get_default "params"
            [("tool", VStr tool_name); ("params", VDict params)] (VDict []))
    with (VDict params).
  cbn [and_then keywords_of].
  rewrite (find_colliding_none params Hkeys).
  cbn [and_then call_tool_any]. rewrite Hcall. reflexivity.
Qed.

Lemma payload_is_dict_or_list (data : payload) :
  Client.is_dict_or_list (payload_to_json data) = true.
Proof. destruct data; reflexivity. Qed.

(** A request the registry answers with [env] comes back to the client
    as the text of [env]: the data of a success as pretty-printed JSON
    (the count is not shown), the message of a failure after "Error: ". *)
Lemma client_over_bridge (tool_name : string) (params : pydict)
  (now : string) (db db' : store) (env : envelope)
  (sent : list Client.request) :
  (forall k, In k (map fst params) -> k <> "self" /\ k <> "tool_name") ->
  call_tool str_exn untyped tool_name params now db = Ret (env, db') ->
  fst (Client._call_mcp_tool@bridge now db tool_name params sent) =
    Ret (render_envelope json_dumps_indent2 env).
Proof.
  intros Hkeys Hcall.
  unfold Client._call_mcp_tool, Client._call_mcp_tool_try, bridge_post.
  rewrite (bridge_answers_request tool_name params now db db' env Hkeys Hcall).
  cbn [fst http_status http_content bind try_except].
  change (Client.raise_for_status
            (Client.mkResponse 200 (Some (envelope_to_json env))))
    with (@Ret unit tt).
  cbn [bind Client.response_json Client.json_body].
  destruct env as [data [count |] | error];
    cbn [envelope_to_json Client.result_get bind];
    unfold dict_get_default; cbn [dict_get String.eqb Ascii.eqb Bool.eqb];
    cbn [truthy bind try_except render_envelope Client.str];
    try rewrite payload_is_dict_or_list; reflexivity.
Qed.

(** The five tools of the client, with the bridge behind them and
    arguments of the annotated types (integers within 64 bits), return
    the text of what the registry's tool answers on the store: never
    "MCP call failed", never "Unknown tool", never a refused keyword.
    [tool_list_customers] with the empty status reads as with none;
    [tool_update_customer] with the JSON text of an object returns the
    updated row, or "Error: " and the message of what the tool answered
    or raised. *)
Theorem client_tools_over_bridge (now : string) (db : store)
  (sent : list Client.request) :
  (forall customer_id, fits_int64 customer_id = true ->
     exists env,
       _get_customer_tool customer_id db = Ret env /\
       fst (Client.tool_get_customer@bridge now db customer_id sent) =
         Ret (render_envelope json_dumps_indent2 env)) /\
  (forall status limit, fits_int64 limit = true ->
     exists env,
       _list_customers_tool status limit db = Ret env /\
       fst (Client.tool_list_customers@bridge now db status limit sent) =
         Ret (render_envelope json_dumps_indent2 env)) /\
  (forall customer_id issue priority, fits_int64 customer_id = true ->
     exists env db',
       _create_ticket_tool customer_id issue priority now db =
         Ret (env, db') /\
       fst (Client.tool_create_ticket@bridge now db customer_id issue priority
                                             sent) =
         Ret (render_envelope json_dumps_indent2 env)) /\
  (forall customer_id, fits_int64 customer_id = true ->
     exists env,
       _get_customer_history_tool customer_id db = Ret env /\
       fst (Client.tool_get_customer_history@bridge now db customer_id sent) =
         Ret (render_envelope json_dumps_indent2 env)) /\
  (forall customer_id data payload,
     fits_int64 customer_id = true ->
     json_loads data = Client.Parsed (VDict payload) ->
     fst (Client.tool_update_customer@bridge now db json_loads customer_id
                                             data sent) =
       Ret (render_envelope json_dumps_indent2
              (match _update_customer_tool customer_id payload now db with
               | Ret (env, _) => env
               | Raise e => Failure (str_exn e)
               end))).
Proof.
  destruct (call_tool_typed str_exn untyped now db)
    as [Hget [Hlist [Hlist_status [Hupdate [Hcreate Hhistory]]]]].
  repeat apply conj.
  - intros customer_id Hfits. unfold Client.tool_get_customer.
    specialize (Hget customer_id).
    rewrite (get_customer_in_range _ _ Hfits) in *.
    destruct (fetchone (select_customers_by_id customer_id db));
      (eexists; split; [reflexivity |];
       eapply client_over_bridge; [| exact Hget];
       simpl; intros k [<- | []]; split; discriminate).
  - intros status limit Hfits.
    destruct (list_customers_rows status limit db Hfits)
      as [rows [Hcall _]].
    eexists. split; [exact Hcall |].
    unfold Client.tool_list_customers, Client.list_customers_params.
    destruct status as [s |]; [destruct (truthy (VStr s)) eqn:E |].
    + specialize (Hlist_status limit s). rewrite Hcall in Hlist_status.
      eapply client_over_bridge; [| exact Hlist_status].
      simpl. intros k [<- | [<- | []]]; split; discriminate.
    + assert (Hnone : _list_customers_tool None limit db =
                        _list_customers_tool (Some s) limit db)
        by (unfold _list_customers_tool; rewrite E; reflexivity).
      specialize (Hlist limit). rewrite Hnone, Hcall in Hlist.
      eapply client_over_bridge; [| exact Hlist].
      simpl. intros k [<- | []]. split; discriminate.
    + specialize (Hlist limit). rewrite Hcall in Hlist.
      eapply client_over_bridge; [| exact Hlist].
      simpl. intros k [<- | []]. split; discriminate.
  - intros customer_id issue priority Hfits. unfold Client.tool_create_ticket.
    pose proof (Hcreate customer_id issue priority) as Hcall.
    destruct (create_ticket_cases customer_id issue priority now db)
      as [[_ [_ H]] | [[_ [Hover _]] | [_ H]]]; [| congruence |];
      rewrite H in Hcall |- *;
      (do 2 eexists; split; [reflexivity |];
       eapply client_over_bridge; [| exact Hcall];
       simpl; intros k [<- | [<- | [<- | []]]]; split; discriminate).
  - intros customer_id Hfits. unfold Client.tool_get_customer_history.
    specialize (Hhistory customer_id).
    rewrite (get_customer_history_in_range _ _ Hfits) in *.
    eexists. split; [reflexivity |].
    eapply client_over_bridge; [| exact Hhistory].
    simpl. intros k [<- | []]. split; discriminate.
  - intros customer_id data payload Hfits Hloads.
    unfold Client.tool_update_customer. rewrite Hloads.
    pose proof (Hupdate customer_id payload) as Hcall.
    destruct (_update_customer_tool customer_id payload now db)
      as [[env db'] | e]; cbn [try_except] in Hcall;
      (eapply client_over_bridge; [| exact Hcall]);
      simpl; intros k [<- | [<- | []]]; split; discriminate.
Qed.

End BridgeProperties.

(** ** What the write tools never do *)

Lemma count_char_app (c : ascii) (a b : string) :
  count_char c (a ++ b) = (count_char c a + count_char c b)%nat.
Proof.
  induction a as [| c' a IH]; simpl; [reflexivity |].
  rewrite IH. lia.
Qed.

Lemma set_clause_placeholders (updates : pydict) :
  Forall (fun kv => In (fst kv) allowed_fields) updates ->
  count_char "?" (set_clause updates) = length updates.
Proof.
  unfold set_clause.
  induction updates as [| [k v] rest IH]; intros Hall; [reflexivity |].
  inversion Hall as [| ? ? Hk Hrest]; subst.
  assert (Hnone : count_char "?" k = 0%nat).
  { simpl in Hk. destruct Hk as [<- | [<- | [<- | [<- | []]]]]; reflexivity. }
  destruct rest as [| kv rest'].
  - cbn [map fst String.concat length]. rewrite count_char_app, Hnone.
    reflexivity.
  - change (String.concat ", " (map (fun kv => (fst kv ++ "=?")%string)
                                    ((k, v) :: kv :: rest')))
      with ((k ++ "=?") ++ ", " ++
            String.concat ", " (map (fun kv => (fst kv ++ "=?")%string)
                                    (kv :: rest')))%string.
    rewrite !count_char_app, Hnone, (IH Hrest). reflexivity.
Qed.

(** No key of the payload reaches the text of the UPDATE statement
    unless it is one of [name], [email], [phone], [status]: the columns
    written into the statement are allow-listed ones, in the order of the
    payload, and the statement has exactly one placeholder for each
    parameter handed to SQLite. *)
Theorem update_statement_from_allow_list
  (data : pydict) (now : string) (customer_id : Z) :
  Forall (fun k => In k allowed_fields) (map fst (allowed_updates data)) /\
  subsequence (map fst (allowed_updates data)) (map fst data) /\
  count_char "?" (update_statement (allowed_updates data)) =
    length (update_parameters (allowed_updates data) now customer_id).
Proof.
  assert (Hall : Forall (fun kv => In (fst kv) allowed_fields)
                        (allowed_updates data)).
  { apply Forall_forall. intros [k v] Hkv.
    apply allowed_updates_keys in Hkv. apply Hkv. }
  split; [| split].
  - apply Forall_map. exact Hall.
  - apply subsequence_map, subsequence_filter.
  - unfold update_statement, update_parameters.
    rewrite !count_char_app, (set_clause_placeholders _ Hall).
    rewrite length_app, length_map. simpl. lia.
Qed.

Lemma update_statement_example :
  update_statement
    (allowed_updates
       [("email", VStr "a@b.c"); ("id=1; DROP TABLE customers; --", VInt 1);
        ("status", VStr "active")]) =
    "UPDATE customers SET email=?, status=?, updated_at=? WHERE id=?".
Proof. reflexivity. Qed.

(** The failure "Failed to create ticket" is never the answer of
    [create_ticket]: the row it has just inserted is always found again.
    It answers with the new ticket, which is then in the table, or with
    the priority failure, or it raises [OverflowError] for a
    [customer_id] that SQLite cannot hold. *)
Theorem create_ticket_never_loses_the_row
  (customer_id : Z) (issue priority now : string) (db : store) :
  (forall db',
      _create_ticket_tool customer_id issue priority now db <>
        Ret (Failure "Failed to create ticket", db')) /\
  ((exists row db',
       _create_ticket_tool customer_id issue priority now db =
         Ret (Success (Ticket_row row) None, db') /\
       In row (tickets db'))
   \/
   _create_ticket_tool customer_id issue priority now db =
     Ret (Failure "Priority must be 'low', 'medium', or 'high'", db)
   \/
   (fits_int64 customer_id = false /\
    _create_ticket_tool customer_id issue priority now db =
      Raise (OverflowError customer_id))).
Proof.
  destruct (create_ticket_cases customer_id issue priority now db)
    as [[_ [_ H]] | [[_ [Hover H]] | [_ H]]]; rewrite H.
  - split; [intros db'; discriminate |]. left. do 2 eexists.
    split; [reflexivity |].
    cbn [tickets]. apply in_or_app. right. simpl. auto.
  - split; [intros db'; discriminate |]. right. right. auto.
  - split; [intros db'; discriminate |]. right. left. reflexivity.
Qed.

(** ** The properties above at the seeded store *)

Lemma failed_write_changes_nothing_witness :
  exists db',
    _create_ticket_tool 1 "x" "urgent" "2025-06-01T12:00:00+00:00"
                        (init_db "2025-01-01T00:00:00+00:00") =
      Ret (Failure "Priority must be 'low', 'medium', or 'high'", db') /\
    db' = init_db "2025-01-01T00:00:00+00:00".
Proof.
  assert (H : _create_ticket_tool 1 "x" "urgent" "2025-06-01T12:00:00+00:00"
                                  (init_db "2025-01-01T00:00:00+00:00") =
                Ret (Failure "Priority must be 'low', 'medium', or 'high'",
                     init_db "2025-01-01T00:00:00+00:00"))
    by reflexivity.
  eexists. split; [exact H |].
  exact (proj2 failed_write_changes_nothing 1 "x" "urgent"
           "2025-06-01T12:00:00+00:00" (init_db "2025-01-01T00:00:00+00:00")
           _ "Priority must be 'low', 'medium', or 'high'" H).
Defined.

Lemma writes_leave_the_rest_witness :
  exists env db',
    _create_ticket_tool 2 "Upgrade failed" "low" "2025-06-01T12:00:00+00:00"
                        (init_db "2025-01-01T00:00:00+00:00") =
      Ret (env, db') /\
    _get_customer_tool 2 db' =
      _get_customer_tool 2 (init_db "2025-01-01T00:00:00+00:00").
Proof.
  destruct (create_ticket_cases 2 "Upgrade failed" "low"
              "2025-06-01T12:00:00+00:00"
              (init_db "2025-01-01T00:00:00+00:00"))
    as [[_ [_ H]] | [[_ [Hfits _]] | [Hout _]]].
  - do 2 eexists. split; [exact H |].
    destruct (proj2 writes_leave_the_rest 2 "Upgrade failed" "low"
                "2025-06-01T12:00:00+00:00"
                (init_db "2025-01-01T00:00:00+00:00") _ _ H)
      as [_ [Hget _]].
    exact (Hget 2).
  - discriminate Hfits.
  - exfalso. apply Hout. left. reflexivity.
Defined.

Lemma call_tool_defaults_witness :
  call_tool (fun _ => "exception")
            (fun _ _ _ _ => Raise (OtherException "untyped"))
            "create_ticket"
            [("customer_id", VInt 4); ("issue", VStr "Slow dashboard")]
            "2025-06-01T12:00:00+00:00" (init_db "2025-01-01T00:00:00+00:00") =
    _create_ticket_tool 4 "Slow dashboard" "medium"
      "2025-06-01T12:00:00+00:00" (init_db "2025-01-01T00:00:00+00:00").
Proof.
  apply (proj1 (call_tool_defaults (fun _ => "exception")
                  (fun _ _ _ _ => Raise (OtherException "untyped"))
                  "2025-06-01T12:00:00+00:00"
                  (init_db "2025-01-01T00:00:00+00:00"))
               4 "Slow dashboard" eq_refl).
Defined.

Lemma tools_list_matches_registry_witness :
  call_tool (fun _ => "exception")
            (fun _ _ _ _ => Raise (OtherException "untyped"))
            "list_customers" [("limit", VInt 5); ("offset", VInt 10)]
            "2025-06-01T12:00:00+00:00" (init_db "2025-01-01T00:00:00+00:00") =
    Ret (Failure "exception", init_db "2025-01-01T00:00:00+00:00").
Proof.
  apply (proj2 (tools_list_matches_registry (fun _ => "exception")
                  (fun _ _ _ _ => Raise (OtherException "untyped")))
               (Bridge.mkToolDescription "list_customers"
                  "List customers, optionally filtered by status"
                  [("status", "string (optional)");
                   ("limit", "integer (optional)")])
               [("limit", VInt 5); ("offset", VInt 10)]
               "2025-06-01T12:00:00+00:00"
               (init_db "2025-01-01T00:00:00+00:00") "offset" (VInt 10)).
  - simpl. auto.
  - reflexivity.
Defined.

Lemma mcp_call_tool_answers_witness :
  Bridge.mcp_call_tool (fun _ => "exception") (fun _ => "type error")
    (fun _ _ _ _ => Raise (OtherException "untyped"))
    (Ret (VDict [("tool", VStr "get_customer");
                 ("params", VDict [("tool_name", VStr "x")])]))
    "2025-06-01T12:00:00+00:00" (init_db "2025-01-01T00:00:00+00:00") =
  (Bridge.mkHttpResponse 500 (Failure "type error"),
   init_db "2025-01-01T00:00:00+00:00").
Proof.
  destruct (mcp_call_tool_answers (fun _ => "exception") (fun _ => "type error")
              (fun _ _ _ _ => Raise (OtherException "untyped"))
              "2025-06-01T12:00:00+00:00"
              (init_db "2025-01-01T00:00:00+00:00"))
    as [_ [_ [_ [Hcollision _]]]].
  apply (Hcollision _ [("tool_name", VStr "x")] "tool_name" (VStr "x"));
    reflexivity.
Defined.

Lemma client_tools_over_bridge_witness :
  fst (Client.tool_get_customer (fun _ => "exception")
         (Bridge.bridge_post (fun _ => "exception") (fun _ => "type error")
            (fun _ _ _ _ => Raise (OtherException "untyped"))
            "2025-06-01T12:00:00+00:00"
            (init_db "2025-01-01T00:00:00+00:00"))
         (fun _ => "json") (fun _ => "repr") 99999 []) =
    Ret "Error: Customer 99999 not found".
Proof.
  destruct (proj1 (client_tools_over_bridge (fun _ => "exception")
                     (fun _ => "type error")
                     (fun _ _ _ _ => Raise (OtherException "untyped"))
                     (fun _ => "json") (fun _ => "repr")
                     (fun _ => Client.JSONDecodeError)
                     "2025-06-01T12:00:00+00:00"
                     (init_db "2025-01-01T00:00:00+00:00") [])
                  99999 eq_refl)
    as [env [Henv Hclient]].
  assert (Hseed : _get_customer_tool 99999
                    (init_db "2025-01-01T00:00:00+00:00") =
                  Ret (Failure "Customer 99999 not found")) by reflexivity.
  rewrite Hseed in Henv. injection Henv as <-. exact Hclient.
Defined.
